(** * autogpt/llm_utils.py: prompt formatting and the retrying dispatcher

    A shallow embedding of [autogpt/llm_utils.py].  The module talks to
    three collaborators that live outside of it: the plugin registry and
    flags of the configuration singleton [CFG], the clients behind
    [api_manager] / the local [transformers] model, and the operator
    log.  The embedding keeps them explicit:

    - the configuration is a record [Config] passed to every function;
    - the backends are oracles of a record [World]: the answer of the
      [n]-th call of one run is a value of [outcome], either a response
      or the exception the call raised;
    - every effect the code has on its surroundings (a console print, a
      plugin call, a backend call, a log line, a sleep) is an [event] of
      the trace of the run; the way a run ends (a returned value, an
      exception that leaves the function, [quit]) is its [result]. *)

From Stdlib Require Import ZArith List String Ascii Bool Lia.
From Stdlib Require Import DecimalString SpecFloat.
Import ListNotations.

Local Open Scope string_scope.
Local Open Scope Z_scope.

(** ** Python strings and values *)

Module Py.

(** The one-character string [\n]. *)
Definition newline_char : ascii := "010"%char.
Definition nl : string := String newline_char "".

(** [sep.join(parts)]. *)
Fixpoint join (sep : string) (parts : list string) : string :=
  match parts with
  | [] => ""
  | [p] => p
  | p :: rest => p ++ sep ++ join sep rest
  end.

(** [s.replace(old, new)] for a pattern [old] of one character. *)
Fixpoint replace_char (old : ascii) (new : string) (s : string) : string :=
  match s with
  | EmptyString => EmptyString
  | String c rest =>
      if Ascii.eqb c old then new ++ replace_char old new rest
      else String c (replace_char old new rest)
  end.

(** [str(n)] of an [int]. *)
Definition str_of_int (n : Z) : string :=
  NilZero.string_of_int (Z.to_int n).

(** The values that reach [str()] in this module.  An object of any
    other class is represented by the text its [__str__] gives. *)
Inductive value : Type :=
| VNone
| VBool (b : bool)
| VInt (n : Z)
| VStr (s : string)
| VObject (str_result : string).

Definition str (v : value) : string :=
  match v with
  | VNone => "None"
  | VBool true => "True"
  | VBool false => "False"
  | VInt n => str_of_int n
  | VStr s => s
  | VObject s => s
  end.

Definition is_none (v : value) : bool :=
  match v with VNone => true | _ => false end.

(** A Python number: the [temperature] argument is the [int] literal
    [0] at one call site and a [float] of the configuration at the
    others.  The module only forwards it. *)
Inductive number : Type :=
| NInt (n : Z)
| NFloat (f : spec_float).

End Py.

(** ** Exceptions, results and traces *)

(** The exception classes the module tells apart are the three it
    imports from [openai.error]; [http_status] is the attribute read by
    the handlers ([None] when the error carries no status).  An
    exception of any other class is a [PyError]: no [except] clause of
    the module matches it. *)
Inductive exn : Type :=
| RateLimitError
| APIError (http_status : option Z)
| Timeout (http_status : option Z)
| PyError (class : string) (message : string).

(** [e.http_status] as the handlers read it: only an [APIError] or a
    [Timeout] reaches the test of the status. *)
Definition exn_http_status (e : exn) : option Z :=
  match e with
  | APIError st | Timeout st => st
  | RateLimitError | PyError _ _ => None
  end.

(** What a call into a collaborator gives back. *)
Inductive outcome (A : Type) : Type :=
| Ok (a : A)
| Err (e : exn).
Arguments Ok {A} a.
Arguments Err {A} e.

Definition failure_of {A} (o : outcome A) : option exn :=
  match o with Ok _ => None | Err e => Some e end.

(** How a run of a function ends. *)
Inductive result (A : Type) : Type :=
| Returned (a : A)
| Raised (e : exn)
| Exited (code : Z).
Arguments Returned {A} a.
Arguments Raised {A} e.
Arguments Exited {A} code.

Record Message : Type := mkMessage { role : string; content : string }.

(** The request a backend receives. *)
Inductive backend_call : Type :=
| AzureChatCompletion (deployment_id : string) (model : option string)
    (messages : list Message) (temperature : Py.number) (max_tokens : option Z)
| LocalGenerate (model : option string) (input_text : string)
    (max_new_tokens : option Z) (eos_token_id pad_token_id : Z)
| ChatCompletion (model : option string)
    (messages : list Message) (temperature : Py.number) (max_tokens : option Z)
| EmbeddingCreate (text_list : list string) (model : string).

Inductive console_line : Type :=
| CreatingChatCompletion (model : option string) (temperature : Py.number)
    (max_tokens : option Z)
| ReachedRateLimit
| BadGatewayWaiting (backoff : Z).

Inductive log_line : Type :=
| DoubleCheckPaidAccount      (* logger.double_check("Please double check ... PAID ...") *)
| DoubleCheck                 (* logger.double_check() *)
| TypewriterLog (title : string).

Inductive event : Type :=
| Print (line : console_line)
| PluginCanHandle (index : nat)
| PluginHandle (index : nat)
| PluginOnResponse (index : nat)
| Backend (attempt : nat) (call : backend_call) (failure : option exn)
| Log (line : log_line)
| Sleep (seconds : Z).

(** A run: the events in the order they happened, and the way it ended. *)
Record run (A : Type) : Type := mkRun { trace : list event; outcome_of : result A }.
Arguments mkRun {A} trace outcome_of.
Arguments trace {A} r.
Arguments outcome_of {A} r.

Module RunMonad.

Definition ret {A} (a : A) : run A := mkRun [] (Returned a).

Definition bind {A B} (m : run A) (k : A -> run B) : run B :=
  match outcome_of m with
  | Returned a => let r := k a in mkRun (trace m ++ trace r) (outcome_of r)
  | Raised e => mkRun (trace m) (Raised e)
  | Exited c => mkRun (trace m) (Exited c)
  end.

Definition emit (ev : event) : run unit := mkRun [ev] (Returned tt).

Definition raise {A} (e : exn) : run A := mkRun [] (Raised e).

(** [quit(code)]. *)
Definition quit {A} (code : Z) : run A := mkRun [] (Exited code).

(** [if flag: body]. *)
Definition when (flag : bool) (body : run unit) : run unit :=
  if flag then body else ret tt.

Declare Scope run_scope.
Delimit Scope run_scope with run.
Notation "x <- m ;; k" := (bind m (fun x => k))
  (at level 61, m at next level, right associativity) : run_scope.
Notation "m ;; k" := (bind m (fun _ => k))
  (at level 61, right associativity) : run_scope.

End RunMonad.
Import RunMonad.
Local Open Scope run_scope.

(** ** The configuration singleton and the collaborators *)

(** The arguments of [create_chat_completion]. *)
Record request : Type := mkRequest {
  messages : list Message;
  model : option string;
  temperature : Py.number;
  max_tokens : option Z
}.

(** What [create_chat_completion] hands back: the text of a completion,
    or the response object itself where the code passes it on as it is. *)
Inductive chat_value : Type :=
| Text (s : string)
| ResponseObject (choices : list string).

(** A plugin, by the four methods the module calls. *)
Record Plugin : Type := mkPlugin {
  can_handle_chat_completion : request -> bool;
  handle_chat_completion : request -> option string;
  can_handle_on_response : bool;
  on_response : chat_value -> chat_value
}.

(** The fields of [CFG] the module reads. *)
Record Config : Type := mkConfig {
  smart_llm_model : string;
  cfg_temperature : Py.number;
  debug_mode : bool;
  use_azure : bool;
  use_local_model : bool;
  plugins : list Plugin;
  get_azure_deployment_id_for_model : option string -> string
}.

(** A response of a backend of [create_chat_completion]: the envelope of
    the hosted and managed services, given by the message content of its
    choices, or the text the local tokenizer decoded. *)
Inductive response : Type :=
| Envelope (choices : list string)
| Decoded (text : string).

Definition embedding : Type := list spec_float.

(** The backends.  [n] is the attempt the call belongs to. *)
Record World : Type := mkWorld {
  api_manager_create_chat_completion :
    backend_call -> nat -> outcome (list string);
  local_model_generate : backend_call -> nat -> outcome string;
  api_manager_embedding_create : backend_call -> nat -> outcome embedding
}.

(** ** The module *)

Module LlmUtils.

Definition num_retries : nat := 10.

(** [get_message_string]: one formatted turn, then the join. *)
Definition format_turn (m : Message) : string :=
  "<|start|>" ++ role m ++ Py.nl ++ content m ++ "<|end|>" ++ Py.nl.

Definition get_message_string (messages : list Message) : string :=
  Py.join "" (map format_turn messages).

(** The first loop of [create_chat_completion]: the plugins that may
    answer in place of the backend.  [index] is the position of the
    head of [ps] in [CFG.plugins]. *)
Fixpoint plugins_handle (ps : list Plugin) (index : nat) (req : request)
  : run (option string) :=
  match ps with
  | [] => ret None
  | plugin :: rest =>
      emit (PluginCanHandle index) ;;
      if can_handle_chat_completion plugin req then
        emit (PluginHandle index) ;;
        match handle_chat_completion plugin req with
        | Some message => ret (Some message)
        | None => plugins_handle rest (S index) req
        end
      else plugins_handle rest (S index) req
  end.

(** The body of the [try] of one attempt: the backend chosen by the
    flags of the configuration. *)
Definition backend_request (cfg : Config) (req : request) : backend_call :=
  if use_azure cfg then
    AzureChatCompletion (get_azure_deployment_id_for_model cfg (model req))
      (model req) (messages req) (temperature req) (max_tokens req)
  else if use_local_model cfg then
    LocalGenerate (model req) (get_message_string (messages req))
      (max_tokens req) 50256 50256
  else
    ChatCompletion (model req) (messages req) (temperature req) (max_tokens req).

Definition backend_answer (cfg : Config) (w : World) (req : request)
    (attempt : nat) : outcome response :=
  let call := backend_request cfg req in
  if use_azure cfg then
    match api_manager_create_chat_completion w call attempt with
    | Ok choices => Ok (Envelope choices)
    | Err e => Err e
    end
  else if use_local_model cfg then
    match local_model_generate w call attempt with
    | Ok text => Ok (Decoded text)
    | Err e => Err e
    end
  else
    match api_manager_create_chat_completion w call attempt with
    | Ok choices => Ok (Envelope choices)
    | Err e => Err e
    end.

Definition backend_attempt (cfg : Config) (w : World) (req : request)
    (attempt : nat) : run (outcome response) :=
  let answer := backend_answer cfg w req attempt in
  emit (Backend attempt (backend_request cfg req) (failure_of answer)) ;;
  ret answer.

(** [e.http_status != 502]. *)
Definition status_is_not_502 (st : option Z) : bool :=
  match st with
  | Some code => negb (code =? 502)
  | None => true
  end.

(** The tail of the loop body, reached when a handler fell through. *)
Definition wait_before_retry (cfg : Config) (backoff : Z) : run unit :=
  when (debug_mode cfg) (emit (Print (BadGatewayWaiting backoff))) ;;
  emit (Sleep backoff).

(** The retry loop of [create_chat_completion] over the attempts left
    of [range(num_retries)]; gives [response] as the loop leaves it. *)
Fixpoint retry_loop (cfg : Config) (w : World) (req : request)
    (attempts : list nat) (warned_user : bool) : run (option response) :=
  match attempts with
  | [] => ret None
  | attempt :: rest =>
      let backoff := 2 ^ (Z.of_nat attempt + 2) in
      answer <- backend_attempt cfg w req attempt ;;
      match answer with
      | Ok response => ret (Some response)
      | Err RateLimitError =>
          when (debug_mode cfg) (emit (Print ReachedRateLimit)) ;;
          when (negb warned_user) (emit (Log DoubleCheckPaidAccount)) ;;
          wait_before_retry cfg backoff ;;
          retry_loop cfg w req rest true
      | Err (APIError st as e) | Err (Timeout st as e) =>
          if status_is_not_502 st then raise e
          else if Nat.eqb attempt (num_retries - 1) then raise e
          else
            wait_before_retry cfg backoff ;;
            retry_loop cfg w req rest warned_user
      | Err e => raise e
      end
  end.

(** The last loop: the plugins that post-process the text. *)
Fixpoint plugins_on_response (ps : list Plugin) (index : nat)
    (resp : chat_value) : run chat_value :=
  match ps with
  | [] => ret resp
  | plugin :: rest =>
      if negb (can_handle_on_response plugin) then
        plugins_on_response rest (S index) resp
      else
        emit (PluginOnResponse index) ;;
        plugins_on_response rest (S index) (on_response plugin resp)
  end.

Definition failed_title : string := "FAILED TO GET RESPONSE FROM OPENAI".

(** After the loop: the report of a missing response, else the text
    of the response and the plugins that post-process it. *)
Definition deliver (cfg : Config) (response : option response)
  : run chat_value :=
  match response with
  | None =>
      emit (Log (TypewriterLog failed_title)) ;;
      emit (Log DoubleCheck) ;;
      if debug_mode cfg then
        raise (PyError "RuntimeError" "Failed to get response after 10 retries")
      else quit 1
  | Some response =>
      resp <-
        (if use_local_model cfg then
           match response with
           | Decoded text => ret (Text text)
           | Envelope choices => ret (ResponseObject choices)
           end
         else
           match response with
           | Envelope (first :: _) => ret (Text first)
           | Envelope [] => raise (PyError "IndexError" "list index out of range")
           | Decoded _ =>
               raise (PyError "AttributeError"
                        "'str' object has no attribute 'choices'")
           end) ;;
      plugins_on_response (plugins cfg) 0 resp
  end.

(** The line printed first in debug mode. *)
Definition announce (cfg : Config) (req : request) : run unit :=
  when (debug_mode cfg)
    (emit (Print (CreatingChatCompletion (model req) (temperature req)
                    (max_tokens req)))).

Definition create_chat_completion (cfg : Config) (w : World) (req : request)
  : run chat_value :=
  announce cfg req ;;
  message <- plugins_handle (plugins cfg) 0 req ;;
  match message with
  | Some message => ret (Text message)
  | None =>
      response <- retry_loop cfg w req (seq 0 num_retries) false ;;
      deliver cfg response
  end.

(** [call_ai_function]: the request it builds, then the dispatch. *)
Definition system_content (function description : string) : string :=
  "You are now the following python function: ```# " ++ description
  ++ Py.nl ++ function ++ "```" ++ Py.nl ++ Py.nl
  ++ "Only respond with your `return` value.".

Definition args_content (args : list Py.value) : string :=
  Py.join ", "
    (map (fun arg => if negb (Py.is_none arg) then Py.str arg else "None") args).

Definition call_ai_function_request (cfg : Config) (function : string)
    (args : list Py.value) (description : string) (model : option string)
  : request :=
  let model :=
    match model with None => smart_llm_model cfg | Some m => m end in
  mkRequest
    [ mkMessage "system" (system_content function description);
      mkMessage "user" (args_content args) ]
    (Some model) (Py.NInt 0) None.

Definition call_ai_function (cfg : Config) (w : World) (function : string)
    (args : list Py.value) (description : string) (model : option string)
  : run chat_value :=
  create_chat_completion cfg w
    (call_ai_function_request cfg function args description model).

(** The embedding functions. *)
Definition ada_model : string := "text-embedding-ada-002".

Definition embedding_attempt (w : World) (text : string) (attempt : nat)
  : run (outcome embedding) :=
  let call := EmbeddingCreate [text] ada_model in
  let answer := api_manager_embedding_create w call attempt in
  emit (Backend attempt call (failure_of answer)) ;;
  ret answer.

Definition get_ada_embedding (w : World) (text : string) : run embedding :=
  let text := Py.replace_char Py.newline_char " " text in
  answer <- embedding_attempt w text 0 ;;
  match answer with
  | Ok v => ret v
  | Err e => raise e
  end.

(** The loop of [create_embedding_with_ada]; leaving the loop without
    a [return] ends the function, which then gives [None]. *)
Fixpoint embedding_loop (cfg : Config) (w : World) (text : string)
    (attempts : list nat) : run (option embedding) :=
  match attempts with
  | [] => ret None
  | attempt :: rest =>
      let backoff := 2 ^ (Z.of_nat attempt + 2) in
      answer <- embedding_attempt w text attempt ;;
      match answer with
      | Ok v => ret (Some v)
      | Err RateLimitError =>
          wait_before_retry cfg backoff ;;
          embedding_loop cfg w text rest
      | Err (APIError st as e) | Err (Timeout st as e) =>
          if status_is_not_502 st then raise e
          else if Nat.eqb attempt (num_retries - 1) then raise e
          else
            wait_before_retry cfg backoff ;;
            embedding_loop cfg w text rest
      | Err e => raise e
      end
  end.

Definition create_embedding_with_ada (cfg : Config) (w : World)
    (text : string) : run (option embedding) :=
  embedding_loop cfg w text (seq 0 num_retries).

End LlmUtils.
Import LlmUtils.

(** ** Reading a trace *)

(** The failures a retry absorbs: a rate limit, or an [APIError] /
    [Timeout] whose status is 502. *)
Definition is_rate_limit (e : exn) : bool :=
  match e with RateLimitError => true | _ => false end.

Definition is_gateway_502 (e : exn) : bool :=
  match e with
  | APIError (Some code) | Timeout (Some code) => code =? 502
  | _ => false
  end.

Definition retryable (e : exn) : bool := is_rate_limit e || is_gateway_502 e.

(** The attempts of the backend calls of a trace, in order. *)
Fixpoint backend_attempts (tr : list event) : list nat :=
  match tr with
  | [] => []
  | Backend k _ _ :: rest => k :: backend_attempts rest
  | _ :: rest => backend_attempts rest
  end.

(** The delays slept, in order. *)
Fixpoint sleeps (tr : list event) : list Z :=
  match tr with
  | [] => []
  | Sleep d :: rest => d :: sleeps rest
  | _ :: rest => sleeps rest
  end.

(** How often the billing warning was written. *)
Fixpoint paid_account_warnings (tr : list event) : nat :=
  match tr with
  | [] => 0%nat
  | Log DoubleCheckPaidAccount :: rest => S (paid_account_warnings rest)
  | _ :: rest => paid_account_warnings rest
  end.

Definition is_backend (ev : event) : bool :=
  match ev with Backend _ _ _ => true | _ => false end.

Definition is_sleep (ev : event) : bool :=
  match ev with Sleep _ => true | _ => false end.

(** Console and log lines: what may stand between a failed attempt and
    the sleep that follows it. *)
Definition is_line (ev : event) : bool :=
  match ev with Print _ | Log _ => true | _ => false end.

(** Neither a backend call nor a sleep. *)
Definition is_aside (ev : event) : bool := negb (is_backend ev || is_sleep ev).

(** The shape of a trace of the dispatcher: every sleep closes a failed
    attempt that may be retried, and has the delay of that attempt. *)
Inductive paced : list event -> Prop :=
| paced_nil : paced []
| paced_aside ev rest :
    is_aside ev = true -> paced rest -> paced (ev :: rest)
| paced_final k call failure rest :
    Forall (fun ev => is_aside ev = true) rest ->
    paced (Backend k call failure :: rest)
| paced_retry k call e between rest :
    retryable e = true ->
    Forall (fun ev => is_line ev = true) between ->
    paced rest ->
    paced (Backend k call (Some e) :: between
             ++ Sleep (2 ^ (Z.of_nat k + 2)) :: rest).

(** A stretch of a trace with no backend call, no sleep and no billing
    warning. *)
Definition quiet (tr : list event) : Prop :=
  Forall (fun ev => is_aside ev = true) tr /\
  paid_account_warnings tr = 0%nat.

(** The failures that leave the retry loop at the attempt [k]: all but
    a rate limit, and but a 502 met before the last attempt. *)
Definition ends_the_loop (k : nat) (e : exn) : Prop :=
  is_rate_limit e = false /\
  (is_gateway_502 e = false \/ k = (num_retries - 1)%nat).

(** The ten attempts of a dispatch have been made, and none of them
    obtained a response. *)
Definition all_attempts_failed (tr : list event) : Prop :=
  backend_attempts tr = seq 0 num_retries /\
  forall k call failure, In (Backend k call failure) tr -> failure <> None.

(** The end of a dispatch that reports that no response was obtained:
    the two lines on the operator log come last, then the run ends with
    the [RuntimeError] in debug mode and with exit status 1 otherwise. *)
Definition reports_exhaustion (cfg : Config) (r : run chat_value) : Prop :=
  (exists pre,
     trace r = pre ++ [Log (TypewriterLog failed_title); Log DoubleCheck])%list /\
  outcome_of r =
    if debug_mode cfg then
      Raised (PyError "RuntimeError" "Failed to get response after 10 retries")
    else Exited 1.

(** The two lines of that report. *)
Definition is_report (ev : event) : bool :=
  match ev with
  | Log (TypewriterLog _) | Log DoubleCheck => true
  | _ => false
  end.

(** Claim C5 in the words of the specification: every dispatch whose
    ten attempts all failed ends with that report. *)
Definition exhaustion_always_reported : Prop :=
  forall cfg w req,
    all_attempts_failed (trace (create_chat_completion cfg w req)) ->
    reports_exhaustion cfg (create_chat_completion cfg w req).

(** The events of consulting the plugins [ps], one after the other in
    the order of the list: the predicate of each is called, and the
    handler of those whose predicate holds.  [index] is the position of
    the head of [ps] in the registry. *)
Fixpoint consultations (ps : list Plugin) (index : nat) (req : request)
  : list event :=
  match ps with
  | [] => []
  | plugin :: rest =>
      (PluginCanHandle index
         :: (if can_handle_chat_completion plugin req
             then [PluginHandle index] else []))
      ++ consultations rest (S index) req
  end%list.

(** The plugin answers the request: it opts in and its handler gives a
    text. *)
Definition answers (plugin : Plugin) (req : request) (text : string) : Prop :=
  can_handle_chat_completion plugin req = true /\
  handle_chat_completion plugin req = Some text.

(** The transcript in the words of the specification: the turns of the
    conversation in their order, each rendered as
    [<|start|>role\ncontent<|end|>\n], one after the other. *)
Fixpoint transcript (conversation : list Message) : string :=
  match conversation with
  | [] => ""
  | turn :: rest =>
      ("<|start|>" ++ role turn ++ Py.nl ++ content turn ++ "<|end|>" ++ Py.nl)
      ++ transcript rest
  end.

(** Claim C7 in the words of the specification, for the traces [tr text
    w] of an embedding operation: whatever the text and the backend,
    every request carries the text with its newlines replaced by
    spaces, and a request that failed with a rate limit or a 502 before
    the last attempt is followed by the next attempt. *)
Definition normalized (text : string) : string :=
  Py.replace_char Py.newline_char " " text.

Definition submits_normalized (tr : list event) (text : string) : Prop :=
  forall k call failure,
    In (Backend k call failure) tr ->
    call = EmbeddingCreate [normalized text] ada_model.

Definition retries_failures (tr : list event) : Prop :=
  forall k call e,
    In (Backend k call (Some e)) tr ->
    retryable e = true ->
    (k < num_retries - 1)%nat ->
    exists failure, In (Backend (S k) call failure) tr.

Definition embedding_as_specified (tr : string -> World -> list event) : Prop :=
  forall text w,
    submits_normalized (tr text w) text /\ retries_failures (tr text w).

(** ** Sample collaborators *)

Module Samples.

Definition no_plugins_cfg (debug : bool) : Config :=
  mkConfig "gpt-4" (Py.NFloat (S754_finite false 1 0)) debug false false []
    (fun _ => "deployment").

Definition local_cfg : Config :=
  mkConfig "gpt-4" (Py.NFloat (S754_finite false 1 0)) false false true []
    (fun _ => "deployment").

Definition calculator : list Message :=
  [ mkMessage "system" "You are a calculator"; mkMessage "user" "2+2" ].

Definition calculator_request : request :=
  mkRequest calculator (Some "gpt-3.5-turbo") (Py.NFloat (S754_finite false 1 0)) None.

(** A backend that answers every attempt the same way. *)
Definition constant_world (chat : outcome (list string))
    (emb : outcome embedding) : World :=
  mkWorld (fun _ _ => chat)
          (fun _ _ => match chat with
                      | Ok (c :: _) => Ok c
                      | Ok [] => Ok ""
                      | Err e => Err e
                      end)
          (fun _ _ => emb).

(** A backend that fails with [e] on the attempts below [n] and then
    answers [chat]. *)
Definition failing_then (n : nat) (e : exn) (chat : outcome (list string))
    (emb : outcome embedding) : World :=
  mkWorld (fun _ k => if (k <? n)%nat then Err e else chat)
          (fun _ k => if (k <? n)%nat then Err e else
                      match chat with
                      | Ok (c :: _) => Ok c
                      | Ok [] => Ok ""
                      | Err e' => Err e'
                      end)
          (fun _ k => if (k <? n)%nat then Err e else emb).

(** A plugin that answers every request with [answer]. *)
Definition answering_plugin (answer : option string) : Plugin :=
  mkPlugin (fun _ => true) (fun _ => answer) false (fun v => v).

(** A plugin that never opts in. *)
Definition idle_plugin : Plugin :=
  mkPlugin (fun _ => false) (fun _ => Some "unused") false (fun v => v).

Definition plugins_cfg (ps : list Plugin) : Config :=
  mkConfig "gpt-4" (Py.NFloat (S754_finite false 1 0)) false false false ps
    (fun _ => "deployment").

End Samples.


(** ** Further readings of a run *)

(** The delay slept after the attempt [attempt]. *)
Definition backoff_of (attempt : nat) : Z := 2 ^ (Z.of_nat attempt + 2).

(** The time slept in all. *)
Definition total_slept (tr : list event) : Z := fold_right Z.add 0 (sleeps tr).

(** A value after the plugins that post-process it: each plugin that
    opts in is applied to what the plugins before it made of the value,
    in the order of the registry. *)
Definition post_processed (ps : list Plugin) (resp : chat_value) : chat_value :=
  fold_left
    (fun value plugin =>
       if can_handle_on_response plugin then on_response plugin value
       else value)
    ps resp.

(** The events of that post-processing. *)
Fixpoint post_processing (ps : list Plugin) (index : nat) : list event :=
  match ps with
  | [] => []
  | plugin :: rest =>
      (if can_handle_on_response plugin then [PluginOnResponse index] else [])
      ++ post_processing rest (S index)
  end%list.

Definition is_print (ev : event) : bool :=
  match ev with Print _ => true | _ => false end.

(** A trace without its console lines. *)
Definition erase_prints (tr : list event) : list event :=
  filter (fun ev => negb (is_print ev)) tr.

(** The configuration with [debug_mode] set to [debug]. *)
Definition with_debug (cfg : Config) (debug : bool) : Config :=
  mkConfig (smart_llm_model cfg) (cfg_temperature cfg) debug (use_azure cfg)
    (use_local_model cfg) (plugins cfg) (get_azure_deployment_id_for_model cfg).

(** The characters of a string that are newlines. *)
Fixpoint newlines (s : string) : nat :=
  match s with
  | EmptyString => 0%nat
  | String c rest =>
      ((if Ascii.eqb c Py.newline_char then 1 else 0) + newlines rest)%nat
  end.

Module MoreSamples.

(** A plugin that decorates the text it post-processes. *)
Definition suffix_plugin (suffix : string) : Plugin :=
  mkPlugin (fun _ => false) (fun _ => None) true
    (fun value =>
       match value with
       | Text s => Text (s ++ suffix)
       | ResponseObject choices => ResponseObject choices
       end).

(** A plugin that opts in to a request and gives no text. *)
Definition silent_plugin : Plugin :=
  mkPlugin (fun _ => true) (fun _ => None) false (fun value => value).

Definition cfg_with (debug azure local : bool) (ps : list Plugin) : Config :=
  mkConfig "gpt-4" (Py.NFloat (S754_finite false 1 0)) debug azure local ps
    (fun _ => "deployment").

End MoreSamples.
(** ** Runs on concrete inputs *)

(** The backend fails twice with 502 and then answers: the text comes
    back and the dispatcher slept 4, then 8. *)
Example two_gateway_failures_then_success :
  let r := create_chat_completion (Samples.no_plugins_cfg false)
             (Samples.failing_then 2 (APIError (Some 502)) (Ok ["4"]) (Ok []))
             Samples.calculator_request in
  outcome_of r = Returned (Text "4") /\
  sleeps (trace r) = [4; 8] /\
  backend_attempts (trace r) = [0; 1; 2]%nat.
Proof. repeat split; reflexivity. Qed.

Example ten_rate_limits_exit :
  let r := create_chat_completion (Samples.no_plugins_cfg false)
             (Samples.constant_world (Err RateLimitError) (Ok []))
             Samples.calculator_request in
  outcome_of r = Exited 1 /\
  sleeps (trace r) = [4; 8; 16; 32; 64; 128; 256; 512; 1024; 2048] /\
  paid_account_warnings (trace r) = 1%nat.
Proof. repeat split; reflexivity. Qed.

Local Open Scope list_scope.

(** ** The monad on runs *)

Section RunFacts.

Context {A B : Type}.

Lemma bind_returned (m : run A) (k : A -> run B) (a : A) :
  outcome_of m = Returned a ->
  bind m k = mkRun (trace m ++ trace (k a)) (outcome_of (k a)).
Proof. intros H. unfold bind. rewrite H. reflexivity. Qed.

Lemma bind_raised (m : run A) (k : A -> run B) (e : exn) :
  outcome_of m = Raised e -> bind m k = mkRun (trace m) (Raised e).
Proof. intros H. unfold bind. rewrite H. reflexivity. Qed.

Lemma bind_exited (m : run A) (k : A -> run B) (c : Z) :
  outcome_of m = Exited c -> bind m k = mkRun (trace m) (Exited c).
Proof. intros H. unfold bind. rewrite H. reflexivity. Qed.

End RunFacts.

(** ** Projections of a trace *)

Lemma backend_attempts_app (a b : list event) :
  backend_attempts (a ++ b) = (backend_attempts a ++ backend_attempts b)%list.
Proof.
  induction a as [| ev a IH]; [reflexivity |].
  destruct ev; simpl; rewrite IH; reflexivity.
Qed.

Lemma paid_account_warnings_app (a b : list event) :
  paid_account_warnings (a ++ b)
  = (paid_account_warnings a + paid_account_warnings b)%nat.
Proof.
  induction a as [| ev a IH]; [reflexivity |].
  destruct ev as [| | | | | [] |]; simpl; rewrite IH; reflexivity.
Qed.

Lemma backend_attempts_aside (tr : list event) :
  Forall (fun ev => is_aside ev = true) tr -> backend_attempts tr = [].
Proof.
  induction 1 as [| ev tr Hev _ IH]; [reflexivity |].
  destruct ev; simpl in *; try discriminate; exact IH.
Qed.

Lemma In_backend_aside (tr : list event) k call failure :
  Forall (fun ev => is_aside ev = true) tr ->
  ~ In (Backend k call failure) tr.
Proof.
  intros Hall Hin. rewrite Forall_forall in Hall.
  specialize (Hall _ Hin). discriminate.
Qed.

Lemma line_is_aside (tr : list event) :
  Forall (fun ev => is_line ev = true) tr ->
  Forall (fun ev => is_aside ev = true) tr.
Proof.
  apply Forall_impl. intros [] H; simpl in *; try discriminate; reflexivity.
Qed.

(** ** The shape [paced] *)

Lemma paced_app_aside_l (a tr : list event) :
  Forall (fun ev => is_aside ev = true) a -> paced tr -> paced (a ++ tr).
Proof.
  induction 1 as [| ev a Hev _ IH]; intros Htr; simpl.
  - exact Htr.
  - apply paced_aside; auto.
Qed.

Lemma paced_app_aside_r (tr b : list event) :
  paced tr -> Forall (fun ev => is_aside ev = true) b -> paced (tr ++ b).
Proof.
  induction 1 as [| ev rest Hev _ IH | k call failure rest Hrest
                  | k call e between rest He Hbetween _ IH]; intros Hb; simpl.
  - rewrite <- (app_nil_r b). apply paced_app_aside_l; [exact Hb | constructor].
  - apply paced_aside; auto.
  - apply paced_final. apply Forall_app; split; assumption.
  - rewrite <- app_assoc. simpl. apply paced_retry; auto.
Qed.

(** In a paced trace every sleep stands right after a failed attempt
    that may be retried, with nothing but console and log lines in
    between, and lasts [2 ^ (k + 2)] for the attempt [k]. *)
Lemma paced_sleep (tr : list event) :
  paced tr ->
  forall pre d post,
    tr = pre ++ Sleep d :: post ->
    exists before k call e between,
      pre = before ++ Backend k call (Some e) :: between /\
      Forall (fun ev => is_line ev = true) between /\
      retryable e = true /\
      d = 2 ^ (Z.of_nat k + 2).
Proof.
  induction 1 as [| ev rest Hev _ IH | k call failure rest Hrest
                  | k call e between rest He Hbetween _ IH];
    intros pre d post Heq.
  - destruct pre; discriminate.
  - destruct pre as [| x pre]; simpl in Heq.
    + injection Heq as -> _. discriminate.
    + injection Heq as -> Heq.
      destruct (IH _ _ _ Heq) as (before & k & call & e & between & -> & H).
      exists (x :: before), k, call, e, between. split; [reflexivity | exact H].
  - destruct pre as [| x pre]; simpl in Heq; [discriminate |].
    injection Heq as _ Heq. exfalso.
    rewrite Forall_forall in Hrest.
    assert (Hin : In (Sleep d) rest) by (rewrite Heq; apply in_elt).
    specialize (Hrest _ Hin). discriminate.
  - destruct pre as [| x pre]; simpl in Heq; [discriminate |].
    injection Heq as <- Heq.
    apply app_eq_app in Heq. destruct Heq as (l & [[Hl1 Hl2] | [-> Hl]]).
    + (* the sleep is the one of this attempt: one among the lines in
         between would not be a line *)
      destruct l as [| y l]; simpl in Hl2.
      * injection Hl2 as Hd _. rewrite app_nil_r in Hl1. subst pre d.
        exists [], k, call, e, between. repeat split; auto.
      * exfalso. injection Hl2 as <- _. subst between.
        rewrite Forall_forall in Hbetween.
        assert (Hin : In (Sleep d) (pre ++ Sleep d :: l)) by apply in_elt.
        specialize (Hbetween _ Hin). discriminate.
    + (* the sleep lies at or after the one that closes this attempt *)
      destruct l as [| y l]; simpl in Hl.
      * injection Hl as Hd _. subst d. rewrite app_nil_r.
        exists [], k, call, e, between. repeat split; auto.
      * injection Hl as <- Hl.
        destruct (IH _ _ _ Hl) as (before & k' & call' & e' & between' & -> & H).
        exists (Backend k call (Some e) :: between
                  ++ Sleep (2 ^ (Z.of_nat k + 2)) :: before),
          k', call', e', between'.
        split; [| exact H]. simpl. rewrite <- app_assoc. reflexivity.
Qed.

Lemma paced_retry_eq tr k call e between rest :
  tr = Backend k call (Some e) :: between
         ++ Sleep (2 ^ (Z.of_nat k + 2)) :: rest ->
  retryable e = true ->
  Forall (fun ev => is_line ev = true) between ->
  paced rest ->
  paced tr.
Proof. intros ->. apply paced_retry. Qed.

(** ** The loops, one iteration at a time *)

(** Closes [exists pre', x1 :: ... :: xn :: pre ++ l = pre' ++ l]. *)
Ltac extend_prefix pre :=
  first
    [ exists pre; reflexivity
    | eexists (_ :: pre); reflexivity
    | eexists (_ :: _ :: pre); reflexivity
    | eexists (_ :: _ :: _ :: pre); reflexivity
    | eexists (_ :: _ :: _ :: _ :: pre); reflexivity
    | eexists (_ :: _ :: _ :: _ :: _ :: pre); reflexivity ].

(** Splits the first iteration of a retry loop by the answer of the
    backend, by the tests of the handlers and by the flags read. *)
Ltac loop_simpl :=
  cbn -[Z.pow Z.add Z.of_nat Nat.eqb Z.eqb num_retries Nat.sub].

Ltac loop_cases cfg answer :=
  destruct answer as [? | [ | [?code |] | [?code |] | ? ?]] eqn:?Hanswer;
  loop_simpl;
  repeat match goal with
    | |- context [negb (?c =? 502)] =>
        is_var c; destruct (Z.eqb_spec c 502); [subst c |]; loop_simpl
    | |- context [Nat.eqb ?a (num_retries - 1)] =>
        is_var a; destruct (Nat.eqb_spec a (num_retries - 1)); loop_simpl
    | |- context [when (debug_mode cfg)] =>
        destruct (debug_mode cfg) eqn:?Hdebug; loop_simpl
    | |- context [when (negb ?b)] => is_var b; destruct b; loop_simpl
    end.

Lemma retry_loop_paced cfg w req attempts warned :
  paced (trace (retry_loop cfg w req attempts warned)).
Proof.
  revert warned. induction attempts as [| a rest IH]; intros warned.
  - constructor.
  - cbn [retry_loop]. unfold backend_attempt, wait_before_retry.
    loop_cases cfg (backend_answer cfg w req a);
      try solve [apply paced_final; apply Forall_nil].
    all: first
      [ eapply (paced_retry_eq _ _ _ _ []); [reflexivity | reflexivity | | apply IH]
      | eapply (paced_retry_eq _ _ _ _ [_]); [reflexivity | reflexivity | | apply IH]
      | eapply (paced_retry_eq _ _ _ _ [_; _]); [reflexivity | reflexivity | | apply IH]
      | eapply (paced_retry_eq _ _ _ _ [_; _; _]); [reflexivity | reflexivity | | apply IH] ].
    all: repeat constructor.
Qed.

Lemma embedding_loop_paced cfg w text attempts :
  paced (trace (embedding_loop cfg w text attempts)).
Proof.
  induction attempts as [| a rest IH].
  - constructor.
  - cbn [embedding_loop]. unfold embedding_attempt, wait_before_retry.
    loop_cases cfg
      (api_manager_embedding_create w (EmbeddingCreate [text] ada_model) a);
      try solve [apply paced_final; apply Forall_nil].
    all: first
      [ eapply (paced_retry_eq _ _ _ _ []); [reflexivity | reflexivity | | apply IH]
      | eapply (paced_retry_eq _ _ _ _ [_]); [reflexivity | reflexivity | | apply IH] ].
    all: repeat constructor.
Qed.

(** The attempts are made in the order of the loop, and no more of them
    than the loop has. *)
Lemma retry_loop_attempts cfg w req n : forall start warned,
  exists made, (made <= n)%nat /\
    backend_attempts (trace (retry_loop cfg w req (seq start n) warned))
    = seq start made.
Proof.
  induction n as [| n IH]; intros start warned.
  - exists 0%nat. split; [lia | reflexivity].
  - cbn [seq retry_loop]. unfold backend_attempt, wait_before_retry.
    loop_cases cfg (backend_answer cfg w req start);
      try (exists 1%nat; split; [lia | reflexivity]).
    all: match goal with
         | |- context [retry_loop _ _ _ (seq _ _) ?wu] =>
             destruct (IH (S start) wu) as (made & Hle & Heq)
         end;
      exists (S made); (split; [lia |]); cbn [seq]; f_equal; exact Heq.
Qed.

Lemma embedding_loop_attempts cfg w text n : forall start,
  exists made, (made <= n)%nat /\
    backend_attempts (trace (embedding_loop cfg w text (seq start n)))
    = seq start made.
Proof.
  induction n as [| n IH]; intros start.
  - exists 0%nat. split; [lia | reflexivity].
  - cbn [seq embedding_loop]. unfold embedding_attempt, wait_before_retry.
    loop_cases cfg
      (api_manager_embedding_create w (EmbeddingCreate [text] ada_model) start);
      try (exists 1%nat; split; [lia | reflexivity]).
    all: destruct (IH (S start)) as (made & Hle & Heq);
      exists (S made); (split; [lia |]); cbn [seq]; f_equal; exact Heq.
Qed.

(** Once the warning is written the loop does not write it again. *)
Lemma retry_loop_warnings cfg w req attempts : forall warned,
  (paid_account_warnings (trace (retry_loop cfg w req attempts warned))
   <= if warned then 0 else 1)%nat.
Proof.
  induction attempts as [| a rest IH]; intros warned.
  - destruct warned; simpl; lia.
  - cbn [retry_loop]. unfold backend_attempt, wait_before_retry.
    loop_cases cfg (backend_answer cfg w req a);
      try (destruct warned; simpl; lia).
    all: cbn [paid_account_warnings];
      try (specialize (IH true); simpl in IH; lia);
      try (specialize (IH warned); destruct warned; simpl in IH |- *; lia).
Qed.

Lemma retry_loop_stops cfg w req attempts : forall warned k call e,
  In (Backend k call (Some e)) (trace (retry_loop cfg w req attempts warned)) ->
  ends_the_loop k e ->
  outcome_of (retry_loop cfg w req attempts warned) = Raised e /\
  exists pre,
    trace (retry_loop cfg w req attempts warned)
    = pre ++ [Backend k call (Some e)].
Proof.
  unfold ends_the_loop.
  induction attempts as [| a rest IH]; intros warned k call e.
  - intros [].
  - cbn [retry_loop]. unfold backend_attempt, wait_before_retry.
    loop_cases cfg (backend_answer cfg w req a); intros Hin Hcond.
    all: repeat match goal with
           | H : _ \/ _ |- _ => destruct H as [H | H]
           | H : False |- _ => destruct H
           | H : Backend _ _ _ = Backend _ _ _ |- _ => inversion H; clear H; subst
           | H : _ = Backend _ _ _ |- _ => discriminate H
           end.
    all: try solve [split; [reflexivity | exists []; reflexivity]].
    all: try solve [destruct Hcond as [Hrate [Hgate | Hlast]];
                    simpl in *; try discriminate; contradiction].
    all: match goal with
         | H : In _ (trace (retry_loop _ _ _ _ ?wu)) |- _ =>
             destruct (IH wu _ _ _ H Hcond) as (Hout & pre & Hpre)
         end;
      (split; [exact Hout |]); rewrite Hpre; extend_prefix pre.
Qed.

Lemma retry_loop_not_exited cfg w req attempts : forall warned c,
  outcome_of (retry_loop cfg w req attempts warned) <> Exited c.
Proof.
  induction attempts as [| a rest IH]; intros warned c.
  - discriminate.
  - cbn [retry_loop]. unfold backend_attempt, wait_before_retry.
    loop_cases cfg (backend_answer cfg w req a);
      solve [discriminate | apply IH].
Qed.

(** The last attempt of the budget: a rate limit there lets the loop
    run out, any other failure leaves the loop as an exception. *)
Lemma retry_loop_last_attempt cfg w req n : forall start warned call e,
  (start + n = num_retries)%nat ->
  In (Backend (num_retries - 1) call (Some e))
     (trace (retry_loop cfg w req (seq start n) warned)) ->
  (is_rate_limit e = true /\
   outcome_of (retry_loop cfg w req (seq start n) warned) = Returned None)
  \/
  (is_rate_limit e = false /\
   outcome_of (retry_loop cfg w req (seq start n) warned) = Raised e).
Proof.
  induction n as [| n IH]; intros start warned call e Hsum.
  - intros [].
  - cbn [seq retry_loop]. unfold backend_attempt, wait_before_retry.
    loop_cases cfg (backend_answer cfg w req start); intros Hin.
    all: repeat match goal with
           | H : _ \/ _ |- _ => destruct H as [H | H]
           | H : False |- _ => destruct H
           | H : Backend _ _ _ = Backend _ _ _ |- _ => inversion H; clear H; subst
           | H : _ = Backend _ _ _ |- _ => discriminate H
           end.
    all: try contradiction.
    all: try solve [right; split; reflexivity].
    all: try solve [eapply IH; [lia | eassumption]].
    all: assert (n = 0%nat) by (unfold num_retries in *; lia); subst n;
      left; split; reflexivity.
Qed.

(** ** The stretches around the retry loop *)

Lemma quiet_app (a b : list event) : quiet a -> quiet b -> quiet (a ++ b).
Proof.
  intros [Ha Hwa] [Hb Hwb]. split.
  - apply Forall_app; split; assumption.
  - rewrite paid_account_warnings_app, Hwa, Hwb. reflexivity.
Qed.

Lemma quiet_nil : quiet [].
Proof. split; [constructor | reflexivity]. Qed.

Lemma plugins_handle_quiet ps req : forall index,
  quiet (trace (plugins_handle ps index req)) /\
  exists message, outcome_of (plugins_handle ps index req) = Returned message.
Proof.
  induction ps as [| plugin rest IH]; intros index.
  - split; [apply quiet_nil | eexists; reflexivity].
  - cbn [plugins_handle]. destruct (IH (S index)) as [[Hall Hw] [message Hout]].
    destruct (can_handle_chat_completion plugin req); cbn.
    + destruct (handle_chat_completion plugin req) as [m |]; cbn.
      * split; [| eexists; reflexivity].
        split; [repeat constructor | reflexivity].
      * split; [| eexists; exact Hout].
        split; [repeat constructor; exact Hall | exact Hw].
    + split; [| eexists; exact Hout].
      split; [repeat constructor; exact Hall | exact Hw].
Qed.

Lemma plugins_on_response_quiet ps : forall index resp,
  quiet (trace (plugins_on_response ps index resp)).
Proof.
  induction ps as [| plugin rest IH]; intros index resp.
  - apply quiet_nil.
  - cbn [plugins_on_response]. destruct (can_handle_on_response plugin); cbn.
    + destruct (IH (S index) (on_response plugin resp)) as [Hall Hw].
      split; [repeat constructor; exact Hall | exact Hw].
    + apply IH.
Qed.

Lemma announce_quiet cfg req : quiet (trace (announce cfg req)).
Proof.
  unfold announce. destruct (debug_mode cfg); cbn.
  - split; [repeat constructor | reflexivity].
  - apply quiet_nil.
Qed.

Lemma deliver_quiet cfg response : quiet (trace (deliver cfg response)).
Proof.
  destruct response as [[choices | text] |]; cbn.
  - destruct (use_local_model cfg); cbn.
    + apply plugins_on_response_quiet.
    + destruct choices; cbn; [apply quiet_nil |].
      apply plugins_on_response_quiet.
  - destruct (use_local_model cfg); cbn.
    + apply plugins_on_response_quiet.
    + apply quiet_nil.
  - destruct (debug_mode cfg); cbn; (split; [repeat constructor | reflexivity]).
Qed.

(** ** The dispatcher around its retry loop *)

Lemma announce_returns cfg req : outcome_of (announce cfg req) = Returned tt.
Proof. unfold announce. destruct (debug_mode cfg); reflexivity. Qed.

(** A dispatch is either answered by a plugin, with a quiet trace, or it
    is the retry loop between two quiet stretches; the second stretch is
    the work of [deliver], and is empty when the loop raised. *)
Lemma create_chat_completion_shape cfg w req :
  let r := create_chat_completion cfg w req in
  let l := retry_loop cfg w req (seq 0 num_retries) false in
  exists head, quiet head /\
    ((exists message, r = mkRun head (Returned (Text message))) \/
     (exists tail, quiet tail /\
        trace r = head ++ trace l ++ tail /\
        match outcome_of l with
        | Returned response =>
            tail = trace (deliver cfg response) /\
            outcome_of r = outcome_of (deliver cfg response)
        | Raised e => tail = [] /\ outcome_of r = Raised e
        | Exited _ => False
        end)).
Proof.
  intros r l. subst r. unfold create_chat_completion.
  rewrite (bind_returned _ _ tt (announce_returns cfg req)).
  destruct (plugins_handle_quiet (plugins cfg) req 0%nat) as [Hquiet [message Hout]].
  rewrite (bind_returned _ _ message Hout). cbn [trace outcome_of].
  destruct message as [message |].
  - exists (trace (announce cfg req) ++ trace (plugins_handle (plugins cfg) 0 req)).
    split; [apply quiet_app; [apply announce_quiet | exact Hquiet] |].
    left. exists message. cbn. rewrite app_nil_r. reflexivity.
  - exists (trace (announce cfg req) ++ trace (plugins_handle (plugins cfg) 0 req)).
    split; [apply quiet_app; [apply announce_quiet | exact Hquiet] |].
    right. fold l.
    destruct (outcome_of l) as [response | e | c] eqn:Hl.
    + exists (trace (deliver cfg response)).
      rewrite (bind_returned _ _ response Hl). cbn [trace outcome_of].
      rewrite <- app_assoc.
      split; [apply deliver_quiet |]. repeat split.
    + exists []. rewrite (bind_raised _ _ e Hl). cbn [trace outcome_of].
      rewrite <- app_assoc, app_nil_r. split; [apply quiet_nil |]. repeat split.
    + exfalso. exact (retry_loop_not_exited _ _ _ _ _ _ Hl).
Qed.

(** A backend call of a dispatch is a call of its retry loop. *)
Lemma backend_event_in_loop cfg w req k call failure :
  let r := create_chat_completion cfg w req in
  let l := retry_loop cfg w req (seq 0 num_retries) false in
  In (Backend k call failure) (trace r) ->
  In (Backend k call failure) (trace l) /\
  exists head tail,
    trace r = head ++ trace l ++ tail /\
    match outcome_of l with
    | Returned response =>
        tail = trace (deliver cfg response) /\
        outcome_of r = outcome_of (deliver cfg response)
    | Raised e => tail = [] /\ outcome_of r = Raised e
    | Exited _ => False
    end.
Proof.
  intros r l Hin.
  destruct (create_chat_completion_shape cfg w req)
    as (head & [Hhead _] & [[message Hshort] | (tail & [Htail _] & Htrace & Hout)]).
  - exfalso. fold r in Hshort. rewrite Hshort in Hin. cbn in Hin.
    exact (In_backend_aside _ _ _ _ Hhead Hin).
  - fold r l in Htrace, Hout. split; [| exists head, tail; split; assumption].
    rewrite Htrace in Hin.
    apply in_app_or in Hin. destruct Hin as [Hin | Hin];
      [exfalso; exact (In_backend_aside _ _ _ _ Hhead Hin) |].
    apply in_app_or in Hin. destruct Hin as [Hin | Hin]; [exact Hin |].
    exfalso; exact (In_backend_aside _ _ _ _ Htail Hin).
Qed.

Lemma create_chat_completion_paced cfg w req :
  paced (trace (create_chat_completion cfg w req)).
Proof.
  destruct (create_chat_completion_shape cfg w req)
    as (head & [Hhead _] & [[message Hshort] | (tail & [Htail _] & Htrace & _)]).
  - rewrite Hshort. cbn. rewrite <- (app_nil_r head).
    apply paced_app_aside_l; [exact Hhead | constructor].
  - rewrite Htrace. apply paced_app_aside_l; [exact Hhead |].
    apply paced_app_aside_r; [apply retry_loop_paced | exact Htail].
Qed.

Lemma create_chat_completion_attempts cfg w req :
  exists made, (made <= num_retries)%nat /\
    backend_attempts (trace (create_chat_completion cfg w req)) = seq 0 made.
Proof.
  destruct (create_chat_completion_shape cfg w req)
    as (head & [Hhead _] & [[message Hshort] | (tail & [Htail _] & Htrace & _)]).
  - exists 0%nat. split; [lia |]. rewrite Hshort. cbn.
    apply backend_attempts_aside. exact Hhead.
  - destruct (retry_loop_attempts cfg w req num_retries 0%nat false)
      as (made & Hle & Hmade).
    exists made. split; [exact Hle |].
    rewrite Htrace, !backend_attempts_app, Hmade.
    rewrite (backend_attempts_aside _ Hhead), (backend_attempts_aside _ Htail).
    rewrite app_nil_r. reflexivity.
Qed.

(** A trace whose attempts count up from 0 and end with [k] has made
    [k + 1] of them. *)
Lemma attempts_up_to_last (tr pre : list event) made k call failure :
  backend_attempts tr = seq 0 made ->
  tr = pre ++ [Backend k call failure] ->
  backend_attempts tr = seq 0 (S k).
Proof.
  intros Hseq ->. rewrite Hseq.
  rewrite backend_attempts_app in Hseq. cbn in Hseq.
  destruct made as [| made]; [destruct (backend_attempts pre); discriminate |].
  rewrite seq_S in Hseq. apply app_inj_tail in Hseq. destruct Hseq as [_ Hk].
  cbn in Hk. subst k. reflexivity.
Qed.

(** A failure that ends the loop is the outcome of the dispatch and the
    last event of its trace. *)
Lemma create_chat_completion_stops cfg w req k call e :
  let r := create_chat_completion cfg w req in
  In (Backend k call (Some e)) (trace r) ->
  ends_the_loop k e ->
  outcome_of r = Raised e /\
  (exists pre, trace r = pre ++ [Backend k call (Some e)]) /\
  backend_attempts (trace r) = seq 0 (S k).
Proof.
  intros r Hin Hends.
  destruct (backend_event_in_loop cfg w req k call (Some e) Hin)
    as (Hloop & head & tail & Htrace & Hout).
  destruct (retry_loop_stops _ _ _ _ _ _ _ _ Hloop Hends) as (Hraised & pre & Hpre).
  rewrite Hraised in Hout. destruct Hout as [-> Hout].
  fold r in Htrace, Hout.
  assert (Hlast : trace r = (head ++ pre) ++ [Backend k call (Some e)]).
  { rewrite Htrace, Hpre, app_nil_r, app_assoc. reflexivity. }
  split; [exact Hout |]. split; [eexists; exact Hlast |].
  destruct (create_chat_completion_attempts cfg w req) as (made & _ & Hmade).
  exact (attempts_up_to_last _ _ _ _ _ _ Hmade Hlast).
Qed.

(** The first rate limit of a dispatch writes the warning, and sets the
    flag that keeps the later ones from writing it. *)
Lemma retry_loop_warns_once cfg w req attempts : forall warned k call,
  In (Backend k call (Some RateLimitError))
     (trace (retry_loop cfg w req attempts warned)) ->
  paid_account_warnings (trace (retry_loop cfg w req attempts warned))
  = if warned then 0%nat else 1%nat.
Proof.
  induction attempts as [| a rest IH]; intros warned k call.
  - intros [].
  - pose proof (retry_loop_warnings cfg w req rest true) as Hafter.
    cbn [retry_loop]. unfold backend_attempt, wait_before_retry.
    loop_cases cfg (backend_answer cfg w req a); intros Hin.
    all: repeat match goal with
           | H : _ \/ _ |- _ => destruct H as [H | H]
           | H : False |- _ => destruct H
           | H : _ = Backend _ _ _ |- _ => discriminate H
           | H : Backend _ _ _ = Backend _ _ _ |- _ => clear H
           end.
    all: try solve [eapply IH; eassumption].
    all: simpl in Hafter; lia.
Qed.

(** ** The claims on the dispatcher *)

(** C1.  A dispatch makes at most 10 backend attempts, numbered 0, 1,
    2, ... in the order they are made.  Every sleep of the trace comes
    after a failed attempt [k] whose failure may be retried (a rate
    limit or a 502), with nothing in between but console and log lines,
    and lasts [2 ^ (k + 2)]: so no sleep precedes the first attempt or
    follows a successful one, and the delays are 4, 8, 16, ... *)
Theorem C1_attempt_budget_and_backoff cfg w req :
  let tr := trace (create_chat_completion cfg w req) in
  (exists made, (made <= 10)%nat /\ backend_attempts tr = seq 0 made) /\
  (forall pre d post,
      tr = pre ++ Sleep d :: post ->
      exists before k call e between,
        pre = before ++ Backend k call (Some e) :: between /\
        Forall (fun ev => is_line ev = true) between /\
        retryable e = true /\
        d = 2 ^ (Z.of_nat k + 2)).
Proof.
  intros tr. split.
  - exact (create_chat_completion_attempts cfg w req).
  - exact (paced_sleep tr (create_chat_completion_paced cfg w req)).
Qed.

Lemma C1_witness :
  let cfg := Samples.no_plugins_cfg false in
  let w := Samples.failing_then 2 (APIError (Some 502)) (Ok ["4"%string]) (Ok []) in
  let req := Samples.calculator_request in
  let call := backend_request cfg req in
  let pre := [Backend 0 call (Some (APIError (Some 502))); Sleep 4;
              Backend 1 call (Some (APIError (Some 502)))] in
  trace (create_chat_completion cfg w req)
  = pre ++ Sleep 8 :: [Backend 2 call None] /\
  exists before k call' e between,
    pre = before ++ Backend k call' (Some e) :: between /\
    Forall (fun ev => is_line ev = true) between /\
    retryable e = true /\
    8 = 2 ^ (Z.of_nat k + 2).
Proof.
  intros cfg w req call pre. split.
  - reflexivity.
  - apply (proj2 (C1_attempt_budget_and_backoff cfg w req)
             pre 8 [Backend 2 call None]).
    reflexivity.
Defined.

(** C3.  A backend failure that is not a rate limit and whose status is
    not 502 is propagated at once, on whatever attempt [k] it happens:
    the dispatch raises this very failure, the failed call is the last
    event of the trace (no sleep, no further attempt) and the attempts
    made are 0 .. k. *)
Theorem C3_other_status_propagates cfg w req k call e :
  let r := create_chat_completion cfg w req in
  In (Backend k call (Some e)) (trace r) ->
  e <> RateLimitError ->
  exn_http_status e <> Some 502 ->
  outcome_of r = Raised e /\
  (exists pre, trace r = pre ++ [Backend k call (Some e)]) /\
  backend_attempts (trace r) = seq 0 (S k).
Proof.
  intros r Hin Hrate Hstatus.
  apply create_chat_completion_stops; [exact Hin |].
  split.
  - destruct e; try reflexivity. contradiction.
  - left. destruct e as [| [code |] | [code |] | cls msg]; try reflexivity;
      simpl in *; destruct (Z.eqb_spec code 502); try reflexivity;
      subst code; contradiction.
Qed.

Lemma C3_witness :
  let cfg := Samples.no_plugins_cfg false in
  let w := Samples.failing_then 1 (APIError (Some 502))
             (Err (APIError (Some 500))) (Ok []) in
  let r := create_chat_completion cfg w Samples.calculator_request in
  let call := backend_request cfg Samples.calculator_request in
  In (Backend 1 call (Some (APIError (Some 500)))) (trace r) /\
  APIError (Some 500) <> RateLimitError /\
  exn_http_status (APIError (Some 500)) <> Some 502 /\
  outcome_of r = Raised (APIError (Some 500)) /\
  backend_attempts (trace r) = [0; 1]%nat.
Proof.
  intros cfg w r call.
  assert (Hin : In (Backend 1 call (Some (APIError (Some 500)))) (trace r))
    by (right; right; left; reflexivity).
  assert (Hrate : APIError (Some 500) <> RateLimitError) by discriminate.
  assert (Hstatus : exn_http_status (APIError (Some 500)) <> Some 502)
    by discriminate.
  pose proof (C3_other_status_propagates cfg w Samples.calculator_request
                1 call (APIError (Some 500)) Hin Hrate Hstatus) as (Hout & _ & Hmade).
  repeat split; assumption.
Defined.

(** C4.  A 502 on the last attempt allowed (attempt 9 of 0 .. 9) is
    raised to the caller: the dispatch ends with this failure, the
    failed call is the last event of its trace, and no value is
    returned. *)
Theorem C4_gateway_failure_on_last_attempt cfg w req call e :
  let r := create_chat_completion cfg w req in
  In (Backend 9 call (Some e)) (trace r) ->
  e = APIError (Some 502) \/ e = Timeout (Some 502) ->
  outcome_of r = Raised e /\
  (exists pre, trace r = pre ++ [Backend 9 call (Some e)]) /\
  (forall v, outcome_of r <> Returned v).
Proof.
  intros r Hin He.
  assert (Hends : ends_the_loop 9 e).
  { split; [destruct He as [-> | ->]; reflexivity | right; reflexivity]. }
  destruct (create_chat_completion_stops cfg w req 9 call e Hin Hends)
    as (Hout & Hlast & _).
  fold r in Hout, Hlast. repeat split; try assumption.
  intros v Hv. rewrite Hout in Hv. discriminate.
Qed.

Lemma C4_witness :
  let cfg := Samples.no_plugins_cfg false in
  let w := Samples.constant_world (Err (APIError (Some 502))) (Ok []) in
  let r := create_chat_completion cfg w Samples.calculator_request in
  let call := backend_request cfg Samples.calculator_request in
  In (Backend 9 call (Some (APIError (Some 502)))) (trace r) /\
  outcome_of r = Raised (APIError (Some 502)).
Proof.
  intros cfg w r call.
  assert (Hin : In (Backend 9 call (Some (APIError (Some 502)))) (trace r)).
  { vm_compute. do 18 right. left. reflexivity. }
  split; [exact Hin |].
  exact (proj1 (C4_gateway_failure_on_last_attempt cfg w
                  Samples.calculator_request call (APIError (Some 502))
                  Hin (or_introl eq_refl))).
Defined.

(** C6.  One dispatch writes the billing warning at most once, however
    many of its attempts are rate limited; and every dispatch that meets
    a rate limit writes it exactly once, whatever happened before: the
    flag starts anew with each dispatch. *)
Theorem C6_rate_limit_warning_once cfg w req :
  let tr := trace (create_chat_completion cfg w req) in
  (paid_account_warnings tr <= 1)%nat /\
  (forall k call,
      In (Backend k call (Some RateLimitError)) tr ->
      paid_account_warnings tr = 1%nat).
Proof.
  intros tr. subst tr.
  destruct (create_chat_completion_shape cfg w req)
    as (head & [Hhead Hwhead]
        & [[message Hshort] | (tail & [Htail Hwtail] & Htrace & _)]).
  - rewrite Hshort. cbn [trace]. split; [lia |].
    intros k call Hin. exfalso. exact (In_backend_aside _ _ _ _ Hhead Hin).
  - rewrite Htrace, !paid_account_warnings_app, Hwhead, Hwtail.
    split.
    + pose proof (retry_loop_warnings cfg w req (seq 0 num_retries) false) as H.
      cbv beta iota in H. lia.
    + intros k call Hin.
      apply in_app_or in Hin. destruct Hin as [Hin | Hin];
        [exfalso; exact (In_backend_aside _ _ _ _ Hhead Hin) |].
      apply in_app_or in Hin. destruct Hin as [Hin | Hin];
        [| exfalso; exact (In_backend_aside _ _ _ _ Htail Hin)].
      rewrite (retry_loop_warns_once _ _ _ _ _ _ _ Hin). reflexivity.
Qed.

Lemma C6_witness :
  let cfg := Samples.no_plugins_cfg true in
  let w := Samples.constant_world (Err RateLimitError) (Ok []) in
  let tr := trace (create_chat_completion cfg w Samples.calculator_request) in
  let call := backend_request cfg Samples.calculator_request in
  In (Backend 3 call (Some RateLimitError)) tr /\
  paid_account_warnings tr = 1%nat.
Proof.
  intros cfg w tr call.
  assert (Hin : In (Backend 3 call (Some RateLimitError)) tr).
  { vm_compute. do 14 right. left. reflexivity. }
  split; [exact Hin |].
  exact (proj2 (C6_rate_limit_warning_once cfg w Samples.calculator_request)
           3%nat call Hin).
Defined.

(** C5, as the specification words it, fails: when the last of the ten
    attempts fails with a 502 all attempts are used up without a
    response, yet nothing is written to the log and, debug mode or not,
    the run ends with the [APIError] of that attempt. *)
Lemma C5_counterexample : ~ exhaustion_always_reported.
Proof.
  intros Hclaim.
  pose (cfg := Samples.no_plugins_cfg false).
  pose (w := Samples.constant_world (Err (APIError (Some 502))) (Ok [])).
  specialize (Hclaim cfg w Samples.calculator_request).
  assert (Hfailed : all_attempts_failed
                      (trace (create_chat_completion cfg w
                                Samples.calculator_request))).
  { split; [reflexivity |].
    intros k call failure Hin. vm_compute in Hin.
    repeat (destruct Hin as [Hin | Hin];
            [try discriminate Hin; injection Hin as _ _ <-; discriminate |]).
    destruct Hin. }
  destruct (Hclaim Hfailed) as [_ Hout].
  discriminate Hout.
Qed.

(** No line of the report is written before the retry loop has run
    out: not by the debug line, not by the plugins, not in the loop. *)
Lemma plugins_handle_no_report ps req : forall index ev,
  In ev (trace (plugins_handle ps index req)) -> is_report ev = false.
Proof.
  induction ps as [| plugin rest IH]; intros index ev Hin; [destruct Hin |].
  cbn [plugins_handle] in Hin.
  destruct (can_handle_chat_completion plugin req); cbn in Hin.
  - destruct (handle_chat_completion plugin req); cbn in Hin.
    + destruct Hin as [<- | [<- | []]]; reflexivity.
    + destruct Hin as [<- | [<- | Hin]]; try reflexivity.
      exact (IH _ _ Hin).
  - destruct Hin as [<- | Hin]; [reflexivity | exact (IH _ _ Hin)].
Qed.

Lemma plugins_on_response_no_report ps : forall index resp ev,
  In ev (trace (plugins_on_response ps index resp)) -> is_report ev = false.
Proof.
  induction ps as [| plugin rest IH]; intros index resp ev Hin; [destruct Hin |].
  cbn [plugins_on_response] in Hin.
  destruct (can_handle_on_response plugin); cbn in Hin.
  - destruct Hin as [<- | Hin]; [reflexivity | exact (IH _ _ _ Hin)].
  - exact (IH _ _ _ Hin).
Qed.

Lemma retry_loop_no_report cfg w req attempts : forall warned ev,
  In ev (trace (retry_loop cfg w req attempts warned)) -> is_report ev = false.
Proof.
  induction attempts as [| a rest IH]; intros warned ev.
  - intros [].
  - cbn [retry_loop]. unfold backend_attempt, wait_before_retry.
    loop_cases cfg (backend_answer cfg w req a); intros Hin.
    all: repeat match goal with
           | H : _ \/ _ |- _ => destruct H as [H | H]
           | H : False |- _ => destruct H
           | H : ?x = ?y |- is_report ?y = false => rewrite <- H; reflexivity
           end.
    all: exact (IH _ _ Hin).
Qed.

Lemma deliver_response_no_report cfg response ev :
  In ev (trace (deliver cfg (Some response))) -> is_report ev = false.
Proof.
  unfold deliver.
  destruct (use_local_model cfg), response as [[| first others] | text];
    cbn; intros Hin; try destruct Hin;
    exact (plugins_on_response_no_report _ _ _ _ Hin).
Qed.

(** A line of the report in the trace of a dispatch tells that its
    retry loop ran out. *)
Lemma report_means_run_out cfg w req ev :
  In ev (trace (create_chat_completion cfg w req)) ->
  is_report ev = true ->
  outcome_of (retry_loop cfg w req (seq 0 num_retries) false) = Returned None.
Proof.
  unfold create_chat_completion.
  rewrite (bind_returned _ _ tt (announce_returns cfg req)).
  destruct (plugins_handle_quiet (plugins cfg) req 0%nat) as [_ [message Hout]].
  rewrite (bind_returned _ _ message Hout). cbn [trace outcome_of].
  intros Hin Hreport.
  assert (Hno : forall P : Prop, is_report ev = false -> P)
    by (intros P Hfalse; rewrite Hfalse in Hreport; discriminate Hreport).
  apply in_app_or in Hin. destruct Hin as [Hin | Hin].
  { apply Hno. unfold announce in Hin. destruct (debug_mode cfg); cbn in Hin.
    - destruct Hin as [<- | []]. reflexivity.
    - destruct Hin. }
  apply in_app_or in Hin. destruct Hin as [Hin | Hin].
  { apply Hno. exact (plugins_handle_no_report _ _ _ _ Hin). }
  destruct message as [message |]; [destruct Hin |].
  destruct (outcome_of (retry_loop cfg w req (seq 0 num_retries) false))
    as [[response |] | e | c] eqn:Hloop.
  - rewrite (bind_returned _ _ (Some response) Hloop) in Hin.
    cbn [trace] in Hin. apply Hno.
    apply in_app_or in Hin. destruct Hin as [Hin | Hin].
    + exact (retry_loop_no_report _ _ _ _ _ _ Hin).
    + exact (deliver_response_no_report _ _ _ Hin).
  - reflexivity.
  - rewrite (bind_raised _ _ e Hloop) in Hin. cbn [trace] in Hin.
    apply Hno. exact (retry_loop_no_report _ _ _ _ _ _ Hin).
  - exfalso. exact (retry_loop_not_exited _ _ _ _ _ _ Hloop).
Qed.

(** C5, amended.  When all ten attempts of a dispatch are used up
    without a response and the last of them failed with a rate limit,
    the dispatch writes the two lines of the report to the operator log
    as its last events and then raises the [RuntimeError] in debug mode
    or ends the process with exit status 1 otherwise.  When the last
    attempt failed in another way, that failure is raised instead,
    without the report: the failed call is the last event of the trace
    and no line of the report is written anywhere in it.  In neither
    case is a value returned. *)
Theorem C5_exhaustion_after_rate_limit cfg w req call e :
  let r := create_chat_completion cfg w req in
  all_attempts_failed (trace r) ->
  In (Backend (num_retries - 1) call (Some e)) (trace r) ->
  (forall v, outcome_of r <> Returned v) /\
  (e = RateLimitError -> reports_exhaustion cfg r) /\
  (e <> RateLimitError ->
   outcome_of r = Raised e /\
   (exists pre,
      trace r = pre ++ [Backend (num_retries - 1) call (Some e)]) /\
   (forall ev, In ev (trace r) -> is_report ev = false)).
Proof.
  intros r _ Hin.
  destruct (backend_event_in_loop cfg w req _ call (Some e) Hin)
    as (Hloop & head & tail & Htrace & Hout).
  fold r in Htrace, Hout.
  destruct (retry_loop_last_attempt cfg w req num_retries 0%nat false call e
              eq_refl Hloop) as [[Hrate Hnone] | [Hrate Hraised]].
  - rewrite Hnone in Hout. destruct Hout as [-> Hout].
    assert (Hreport : reports_exhaustion cfg r).
    { split.
      - exists (head ++ trace (retry_loop cfg w req (seq 0 num_retries) false)).
        rewrite Htrace, <- app_assoc. f_equal. f_equal.
        cbn. destruct (debug_mode cfg); reflexivity.
      - rewrite Hout. cbn. destruct (debug_mode cfg); reflexivity. }
    split; [| split].
    + intros v Hv. destruct Hreport as [_ Hend]. rewrite Hend in Hv.
      destruct (debug_mode cfg); discriminate.
    + intros _. exact Hreport.
    + intros Hne. destruct e; try discriminate. contradiction.
  - rewrite Hraised in Hout. destruct Hout as [_ Hout].
    split; [| split].
    + intros v Hv. rewrite Hout in Hv. discriminate.
    + intros ->. discriminate.
    + intros _.
      assert (Hends : ends_the_loop (num_retries - 1) e)
        by (split; [exact Hrate | right; reflexivity]).
      destruct (create_chat_completion_stops cfg w req _ call e Hin Hends)
        as (_ & Hlast & _).
      split; [exact Hout |]. split; [exact Hlast |].
      intros ev Hev.
      destruct (is_report ev) eqn:Hreport; [| reflexivity].
      pose proof (report_means_run_out cfg w req ev Hev Hreport) as Hnone.
      rewrite Hraised in Hnone. discriminate Hnone.
Qed.

Lemma C5_witness :
  let cfg := Samples.no_plugins_cfg false in
  let w := Samples.constant_world (Err RateLimitError) (Ok []) in
  let r := create_chat_completion cfg w Samples.calculator_request in
  let call := backend_request cfg Samples.calculator_request in
  all_attempts_failed (trace r) /\
  In (Backend (num_retries - 1) call (Some RateLimitError)) (trace r) /\
  reports_exhaustion cfg r /\
  let w' := Samples.constant_world (Err (APIError (Some 502))) (Ok []) in
  let r' := create_chat_completion cfg w' Samples.calculator_request in
  all_attempts_failed (trace r') /\
  In (Backend (num_retries - 1) call (Some (APIError (Some 502)))) (trace r') /\
  APIError (Some 502) <> RateLimitError /\
  outcome_of r' = Raised (APIError (Some 502)) /\
  (forall ev, In ev (trace r') -> is_report ev = false).
Proof.
  intros cfg w r call.
  assert (Hfailed : all_attempts_failed (trace r)).
  { split; [reflexivity |].
    intros k call' failure Hin. vm_compute in Hin.
    repeat (destruct Hin as [Hin | Hin];
            [try discriminate Hin; injection Hin as _ _ <-; discriminate |]).
    destruct Hin. }
  assert (Hin : In (Backend (num_retries - 1) call (Some RateLimitError))
                   (trace r)).
  { vm_compute. do 19 right. left. reflexivity. }
  split; [exact Hfailed |]. split; [exact Hin |].
  split.
  { exact (proj1 (proj2 (C5_exhaustion_after_rate_limit cfg w
                           Samples.calculator_request call RateLimitError
                           Hfailed Hin)) eq_refl). }
  intros w' r'.
  assert (Hfailed' : all_attempts_failed (trace r')).
  { split; [reflexivity |].
    intros k call' failure Hin'. vm_compute in Hin'.
    repeat (destruct Hin' as [Hin' | Hin'];
            [try discriminate Hin'; injection Hin' as _ _ <-; discriminate |]).
    destruct Hin'. }
  assert (Hin' : In (Backend (num_retries - 1) call (Some (APIError (Some 502))))
                    (trace r')).
  { vm_compute. do 18 right. left. reflexivity. }
  assert (Hne : APIError (Some 502) <> RateLimitError) by discriminate.
  split; [exact Hfailed' |]. split; [exact Hin' |]. split; [exact Hne |].
  destruct (proj2 (proj2 (C5_exhaustion_after_rate_limit cfg w'
                            Samples.calculator_request call
                            (APIError (Some 502)) Hfailed' Hin')) Hne)
    as (Hout & _ & Hquiet).
  split; [exact Hout | exact Hquiet].
Defined.

(** ** The plugins that answer in place of the backend *)

(** The loop over the plugins stops at the first one that answers. *)
Lemma plugins_handle_first ps req : forall index i plugin text,
  nth_error ps i = Some plugin ->
  answers plugin req text ->
  exists j winner answer,
    (j <= i)%nat /\
    nth_error ps j = Some winner /\
    answers winner req answer /\
    (forall j' earlier t,
        (j' < j)%nat -> nth_error ps j' = Some earlier ->
        ~ answers earlier req t) /\
    plugins_handle ps index req
    = mkRun (consultations (firstn (S j) ps) index req) (Returned (Some answer)).
Proof.
  induction ps as [| p rest IH]; intros index i plugin text Hnth Hanswers.
  - destruct i; discriminate.
  - destruct (can_handle_chat_completion p req) eqn:Hcan;
      [destruct (handle_chat_completion p req) as [t |] eqn:Hhandle |].
    + (* the head answers *)
      exists 0%nat, p, t. repeat split; try assumption; try lia.
      cbn. rewrite Hcan, Hhandle. reflexivity.
    + (* the head opts in and gives nothing *)
      destruct i as [| i]; cbn in Hnth.
      { injection Hnth as ->. destruct Hanswers as [_ H]. congruence. }
      destruct (IH (S index) i plugin text Hnth Hanswers)
        as (j & winner & answer & Hle & Hj & Hwin & Hfirst & Hrun).
      exists (S j), winner, answer. repeat split; try apply Hwin; try lia.
      * exact Hj.
      * intros [| j'] earlier t Hlt Hearlier [Hc Hh]; cbn in Hearlier.
        -- injection Hearlier as <-. congruence.
        -- apply (Hfirst j' earlier t); [lia | exact Hearlier | split; assumption].
      * cbn [plugins_handle firstn consultations]. rewrite Hcan, Hhandle, Hrun.
        reflexivity.
    + (* the head does not opt in *)
      destruct i as [| i]; cbn in Hnth.
      { injection Hnth as ->. destruct Hanswers as [H _]. congruence. }
      destruct (IH (S index) i plugin text Hnth Hanswers)
        as (j & winner & answer & Hle & Hj & Hwin & Hfirst & Hrun).
      exists (S j), winner, answer. repeat split; try apply Hwin; try lia.
      * exact Hj.
      * intros [| j'] earlier t Hlt Hearlier [Hc Hh]; cbn in Hearlier.
        -- injection Hearlier as <-. congruence.
        -- apply (Hfirst j' earlier t); [lia | exact Hearlier | split; assumption].
      * cbn [plugins_handle firstn consultations]. rewrite Hcan, Hrun.
        reflexivity.
Qed.

Lemma sleeps_aside (tr : list event) :
  Forall (fun ev => is_aside ev = true) tr -> sleeps tr = [].
Proof.
  induction 1 as [| ev tr Hev _ IH]; [reflexivity |].
  destruct ev; simpl in *; try discriminate; exact IH.
Qed.

(** C2.  When some registered plugin opts in to the request and its
    handler gives a text, the dispatch is answered by the plugins: the
    plugins are consulted in the order of the registry up to the first
    one that answers, whose text is returned as it is; the trace holds
    nothing but the debug line and these consultations, so no backend
    call is made and nothing is slept.  If the plugin at hand is the
    first that answers, it is the one whose text is returned.  (The
    handler's text is tested with [is not None]: any text counts, the
    empty one included.) *)
Theorem C2_plugin_short_circuit cfg w req i plugin text :
  let r := create_chat_completion cfg w req in
  nth_error (plugins cfg) i = Some plugin ->
  answers plugin req text ->
  exists j winner answer,
    (j <= i)%nat /\
    nth_error (plugins cfg) j = Some winner /\
    answers winner req answer /\
    (forall j' earlier t,
        (j' < j)%nat -> nth_error (plugins cfg) j' = Some earlier ->
        ~ answers earlier req t) /\
    outcome_of r = Returned (Text answer) /\
    trace r = trace (announce cfg req)
              ++ consultations (firstn (S j) (plugins cfg)) 0 req /\
    backend_attempts (trace r) = [] /\
    sleeps (trace r) = [] /\
    ((forall j' earlier t,
         (j' < i)%nat -> nth_error (plugins cfg) j' = Some earlier ->
         ~ answers earlier req t) ->
     j = i /\ answer = text).
Proof.
  intros r Hnth Hanswers.
  destruct (plugins_handle_first (plugins cfg) req 0%nat i plugin text
              Hnth Hanswers)
    as (j & winner & answer & Hle & Hj & Hwin & Hfirst & Hrun).
  assert (Hr : r = mkRun (trace (announce cfg req)
                            ++ consultations (firstn (S j) (plugins cfg)) 0 req)
                         (Returned (Text answer))).
  { subst r. unfold create_chat_completion.
    rewrite (bind_returned _ _ tt (announce_returns cfg req)).
    rewrite Hrun. cbn. rewrite app_nil_r. reflexivity. }
  assert (Haside : Forall (fun ev => is_aside ev = true) (trace r)).
  { destruct (plugins_handle_quiet (plugins cfg) req 0%nat) as [[Hall _] _].
    rewrite Hrun in Hall. cbn in Hall.
    rewrite Hr. cbn. apply Forall_app. split; [| exact Hall].
    apply announce_quiet. }
  exists j, winner, answer.
  split; [exact Hle |]. split; [exact Hj |]. split; [exact Hwin |].
  split; [exact Hfirst |].
  split; [rewrite Hr; reflexivity |].
  split; [rewrite Hr; reflexivity |].
  split; [apply backend_attempts_aside; exact Haside |].
  split; [apply sleeps_aside; exact Haside |].
  intros Hi.
  assert (j = i).
  { destruct (Nat.eq_dec j i) as [-> | Hne]; [reflexivity |].
    exfalso. apply (Hi j winner answer); [lia | exact Hj | exact Hwin]. }
  subst j. split; [reflexivity |].
  rewrite Hnth in Hj. injection Hj as <-.
  destruct Hwin as [_ Hwin], Hanswers as [_ Hanswers]. congruence.
Qed.

Lemma C2_witness :
  let ps := [Samples.idle_plugin; Samples.answering_plugin None;
             Samples.answering_plugin (Some "hi"%string);
             Samples.answering_plugin (Some "late"%string)] in
  let cfg := Samples.plugins_cfg ps in
  let w := Samples.constant_world (Err RateLimitError) (Ok []) in
  let r := create_chat_completion cfg w Samples.calculator_request in
  nth_error (plugins cfg) 3 = Some (Samples.answering_plugin (Some "late"%string)) /\
  answers (Samples.answering_plugin (Some "late"%string))
    Samples.calculator_request "late" /\
  outcome_of r = Returned (Text "hi") /\
  trace r = [PluginCanHandle 0; PluginCanHandle 1; PluginHandle 1;
             PluginCanHandle 2; PluginHandle 2] /\
  (exists j winner answer,
      (j <= 3)%nat /\
      nth_error (plugins cfg) j = Some winner /\
      answers winner Samples.calculator_request answer /\
      outcome_of r = Returned (Text answer) /\
      backend_attempts (trace r) = []) /\
  (forall j' earlier t,
      (j' < 2)%nat -> nth_error (plugins cfg) j' = Some earlier ->
      ~ answers earlier Samples.calculator_request t) /\
  (exists j answer, j = 2%nat /\ answer = "hi"%string /\
                    outcome_of r = Returned (Text answer)).
Proof.
  intros ps cfg w r.
  assert (Hnth : nth_error (plugins cfg) 3
                 = Some (Samples.answering_plugin (Some "late"%string)))
    by reflexivity.
  assert (Hanswers : answers (Samples.answering_plugin (Some "late"%string))
                       Samples.calculator_request "late")
    by (split; reflexivity).
  split; [exact Hnth |]. split; [exact Hanswers |].
  split; [reflexivity |]. split; [reflexivity |].
  destruct (C2_plugin_short_circuit cfg w Samples.calculator_request 3
              (Samples.answering_plugin (Some "late"%string)) "late"%string
              Hnth Hanswers)
    as (j & winner & answer & Hle & Hj & Hwin & _ & Hout & _ & Hcalls & _).
  split; [exists j, winner, answer; repeat split; try assumption; apply Hwin |].
  assert (Hfirst : forall j' earlier t,
             (j' < 2)%nat -> nth_error (plugins cfg) j' = Some earlier ->
             ~ answers earlier Samples.calculator_request t).
  { intros [| [| j']] earlier t Hlt Hearlier [Hcan Hhandle];
      [| | lia]; injection Hearlier as <-; discriminate. }
  split; [exact Hfirst |].
  destruct (C2_plugin_short_circuit cfg w Samples.calculator_request 2
              (Samples.answering_plugin (Some "hi"%string)) "hi"%string
              eq_refl (conj eq_refl eq_refl))
    as (j2 & _ & answer2 & _ & _ & _ & _ & Hout2 & _ & _ & _ & Hsame).
  destruct (Hsame Hfirst) as [Hj2 Hanswer2].
  exists j2, answer2. repeat split; assumption.
Defined.

(** ** Prompt formatting *)

Lemma append_nil_r (s : string) : (s ++ "")%string = s.
Proof. induction s as [| c s IH]; simpl; [| rewrite IH]; reflexivity. Qed.

Lemma join_empty_cons (part : string) (parts : list string) :
  Py.join "" (part :: parts) = (part ++ Py.join "" parts)%string.
Proof.
  destruct parts as [| next parts]; cbn [Py.join].
  - symmetry. apply append_nil_r.
  - reflexivity.
Qed.

Lemma get_message_string_transcript (conversation : list Message) :
  get_message_string conversation = transcript conversation.
Proof.
  unfold get_message_string.
  induction conversation as [| turn rest IH]; [reflexivity |].
  cbn [map transcript]. rewrite join_empty_cons, IH. reflexivity.
Qed.

(** Every attempt of the retry loop sends the same request. *)
Lemma retry_loop_calls cfg w req attempts : forall warned k call failure,
  In (Backend k call failure) (trace (retry_loop cfg w req attempts warned)) ->
  call = backend_request cfg req.
Proof.
  induction attempts as [| a rest IH]; intros warned k call failure.
  - intros [].
  - cbn [retry_loop]. unfold backend_attempt, wait_before_retry.
    loop_cases cfg (backend_answer cfg w req a); intros Hin.
    all: repeat match goal with
           | H : _ \/ _ |- _ => destruct H as [H | H]
           | H : False |- _ => destruct H
           | H : Backend _ _ _ = Backend _ _ _ |- _ =>
               injection H as _ H _; symmetry; exact H
           | H : _ = Backend _ _ _ |- _ => discriminate H
           end.
    all: eapply IH; eassumption.
Qed.

Lemma create_chat_completion_calls cfg w req k call failure :
  In (Backend k call failure) (trace (create_chat_completion cfg w req)) ->
  call = backend_request cfg req.
Proof.
  intros Hin.
  destruct (backend_event_in_loop cfg w req k call failure Hin) as [Hloop _].
  exact (retry_loop_calls _ _ _ _ _ _ _ _ Hloop).
Qed.

(** C9.  The text handed to the local backend is the transcript of the
    conversation: the turns in their order, each as
    [<|start|>role\ncontent<|end|>\n]; and with the local backend
    selected every backend call of a dispatch is a local generation on
    that transcript, with 50256 as end-of-sequence and as padding token
    id. *)
Theorem C9_local_transcript cfg w req :
  get_message_string (messages req) = transcript (messages req) /\
  (use_azure cfg = false -> use_local_model cfg = true ->
   forall k call failure,
     In (Backend k call failure) (trace (create_chat_completion cfg w req)) ->
     call = LocalGenerate (model req) (transcript (messages req))
              (max_tokens req) 50256 50256).
Proof.
  split; [apply get_message_string_transcript |].
  intros Hazure Hlocal k call failure Hin.
  rewrite (create_chat_completion_calls cfg w req k call failure Hin).
  unfold backend_request. rewrite Hazure, Hlocal.
  rewrite get_message_string_transcript. reflexivity.
Qed.

Lemma C9_witness :
  let w := Samples.constant_world (Ok ["4"%string]) (Ok []) in
  let r := create_chat_completion Samples.local_cfg w Samples.calculator_request in
  let text :=
    ("<|start|>system" ++ Py.nl ++ "You are a calculator<|end|>" ++ Py.nl
     ++ "<|start|>user" ++ Py.nl ++ "2+2<|end|>" ++ Py.nl)%string in
  let call := LocalGenerate (Some "gpt-3.5-turbo"%string) text None 50256 50256 in
  use_azure Samples.local_cfg = false /\
  use_local_model Samples.local_cfg = true /\
  trace r = [Backend 0 call None] /\
  call = LocalGenerate (model Samples.calculator_request)
           (transcript (messages Samples.calculator_request))
           (max_tokens Samples.calculator_request) 50256 50256.
Proof.
  intros w r text call.
  assert (Htrace : trace r = [Backend 0 call None]) by reflexivity.
  split; [reflexivity |]. split; [reflexivity |]. split; [exact Htrace |].
  apply (proj2 (C9_local_transcript Samples.local_cfg w
                  Samples.calculator_request) eq_refl eq_refl 0%nat call None).
  fold r. rewrite Htrace. left. reflexivity.
Defined.

(** C8.  [call_ai_function] builds a conversation of exactly two turns:
    a system turn whose content embeds the description and the
    signature of the function, and a user turn whose content is the
    arguments, each turned into text ([None] as the token [None]), joined
    by a comma and a space.  It makes one dispatch, of this conversation
    with temperature 0 whatever the temperature of the configuration:
    every backend call of the run carries it.  For the arguments
    [2, None] the content of the user turn is [2, None]. *)
Theorem C8_call_ai_function cfg w function args description model_arg :
  let req := call_ai_function_request cfg function args description model_arg in
  messages req
  = [ mkMessage "system"
        ("You are now the following python function: ```# " ++ description
         ++ Py.nl ++ function ++ "```" ++ Py.nl ++ Py.nl
         ++ "Only respond with your `return` value.")%string;
      mkMessage "user" (Py.join ", " (map Py.str args)) ] /\
  temperature req = Py.NInt 0 /\
  call_ai_function cfg w function args description model_arg
  = create_chat_completion cfg w req /\
  (forall k call failure,
      In (Backend k call failure)
         (trace (call_ai_function cfg w function args description model_arg)) ->
      call = backend_request cfg req) /\
  content
    (nth 1 (messages (call_ai_function_request cfg "add(a,b)"
                        [Py.VInt 2; Py.VNone] "adds two numbers" (Some "x"%string)))
       (mkMessage "" ""))
  = "2, None"%string.
Proof.
  intros req.
  split; [| split; [reflexivity | split; [reflexivity | split; [| reflexivity]]]].
  - subst req. unfold call_ai_function_request. cbn [messages].
    unfold system_content, args_content. do 4 f_equal.
    apply map_ext. intros [| | | |]; reflexivity.
  - intros k call failure Hin.
    exact (create_chat_completion_calls cfg w req k call failure Hin).
Qed.

Lemma C8_witness :
  let cfg := Samples.no_plugins_cfg false in
  let w := Samples.constant_world (Ok ["2"%string]) (Ok []) in
  let r := call_ai_function cfg w "add(a,b)" [Py.VInt 2; Py.VNone]
             "adds two numbers" (Some "x"%string) in
  let conversation :=
    [ mkMessage "system"
        ("You are now the following python function: ```# adds two numbers"
         ++ Py.nl ++ "add(a,b)```" ++ Py.nl ++ Py.nl
         ++ "Only respond with your `return` value.")%string;
      mkMessage "user" "2, None" ] in
  let call := ChatCompletion (Some "x"%string) conversation (Py.NInt 0) None in
  trace r = [Backend 0 call None] /\
  call = backend_request cfg
           (call_ai_function_request cfg "add(a,b)" [Py.VInt 2; Py.VNone]
              "adds two numbers" (Some "x"%string)).
Proof.
  intros cfg w r conversation call.
  assert (Htrace : trace r = [Backend 0 call None]) by reflexivity.
  split; [exact Htrace |].
  apply (proj1 (proj2 (proj2 (proj2
           (C8_call_ai_function cfg w "add(a,b)" [Py.VInt 2; Py.VNone]
              "adds two numbers" (Some "x"%string))))) 0%nat call None).
  fold r. rewrite Htrace. left. reflexivity.
Defined.

(** ** The embedding functions *)

Lemma replace_char_chars (old : ascii) (new : ascii) (s : string) :
  list_ascii_of_string (Py.replace_char old (String new "") s)
  = map (fun c => if Ascii.eqb c old then new else c) (list_ascii_of_string s).
Proof.
  induction s as [| c s IH]; [reflexivity |].
  cbn [Py.replace_char list_ascii_of_string map].
  destruct (Ascii.eqb c old); cbn; rewrite IH; reflexivity.
Qed.

Lemma embedding_loop_head cfg w text a rest :
  exists tail,
    trace (embedding_loop cfg w text (a :: rest))
    = Backend a (EmbeddingCreate [text] ada_model)
        (failure_of (api_manager_embedding_create w
                       (EmbeddingCreate [text] ada_model) a))
      :: tail.
Proof.
  cbn [embedding_loop]. unfold embedding_attempt, wait_before_retry.
  loop_cases cfg
    (api_manager_embedding_create w (EmbeddingCreate [text] ada_model) a);
    eexists; reflexivity.
Qed.

Lemma embedding_loop_calls cfg w text attempts : forall k call failure,
  In (Backend k call failure) (trace (embedding_loop cfg w text attempts)) ->
  call = EmbeddingCreate [text] ada_model.
Proof.
  induction attempts as [| a rest IH]; intros k call failure.
  - intros [].
  - cbn [embedding_loop]. unfold embedding_attempt, wait_before_retry.
    loop_cases cfg
      (api_manager_embedding_create w (EmbeddingCreate [text] ada_model) a);
      intros Hin.
    all: repeat match goal with
           | H : _ \/ _ |- _ => destruct H as [H | H]
           | H : False |- _ => destruct H
           | H : Backend _ _ _ = Backend _ _ _ |- _ =>
               injection H as _ H _; symmetry; exact H
           | H : _ = Backend _ _ _ |- _ => discriminate H
           end.
    all: eapply IH; eassumption.
Qed.

Lemma embedding_loop_stops cfg w text attempts : forall k call e,
  In (Backend k call (Some e)) (trace (embedding_loop cfg w text attempts)) ->
  ends_the_loop k e ->
  outcome_of (embedding_loop cfg w text attempts) = Raised e /\
  exists pre,
    trace (embedding_loop cfg w text attempts)
    = pre ++ [Backend k call (Some e)].
Proof.
  unfold ends_the_loop.
  induction attempts as [| a rest IH]; intros k call e.
  - intros [].
  - cbn [embedding_loop]. unfold embedding_attempt, wait_before_retry.
    loop_cases cfg
      (api_manager_embedding_create w (EmbeddingCreate [text] ada_model) a);
      intros Hin Hcond.
    all: repeat match goal with
           | H : _ \/ _ |- _ => destruct H as [H | H]
           | H : False |- _ => destruct H
           | H : Backend _ _ _ = Backend _ _ _ |- _ => inversion H; clear H; subst
           | H : _ = Backend _ _ _ |- _ => discriminate H
           end.
    all: try solve [split; [reflexivity | exists []; reflexivity]].
    all: try solve [destruct Hcond as [Hrate [Hgate | Hlast]];
                    simpl in *; try discriminate; contradiction].
    all: destruct (IH _ _ _ Hin Hcond) as (Hout & pre & Hpre);
      (split; [exact Hout |]); rewrite Hpre; extend_prefix pre.
Qed.

(** What makes the embedding loop raise is a failure that ends it. *)
Lemma embedding_loop_raised cfg w text attempts : forall e,
  outcome_of (embedding_loop cfg w text attempts) = Raised e ->
  exists k,
    ends_the_loop k e /\
    exists pre,
      trace (embedding_loop cfg w text attempts)
      = pre ++ [Backend k (EmbeddingCreate [text] ada_model) (Some e)].
Proof.
  unfold ends_the_loop.
  induction attempts as [| a rest IH]; intros e.
  - discriminate.
  - cbn [embedding_loop]. unfold embedding_attempt, wait_before_retry.
    loop_cases cfg
      (api_manager_embedding_create w (EmbeddingCreate [text] ada_model) a);
      intros Hout.
    all: try discriminate Hout.
    all: try (injection Hout as <-; exists a;
              split; [| exists []; reflexivity];
              split; [reflexivity |]; simpl;
              solve [left; reflexivity | right; assumption
                    | left; apply Z.eqb_neq; assumption]).
    all: destruct (IH e Hout) as (k & Hends & pre & Hpre);
      exists k; (split; [exact Hends |]); rewrite Hpre; extend_prefix pre.
Qed.

Lemma embedding_loop_not_exited cfg w text attempts : forall c,
  outcome_of (embedding_loop cfg w text attempts) <> Exited c.
Proof.
  induction attempts as [| a rest IH]; intros c.
  - discriminate.
  - cbn [embedding_loop]. unfold embedding_attempt, wait_before_retry.
    loop_cases cfg
      (api_manager_embedding_create w (EmbeddingCreate [text] ada_model) a);
      solve [discriminate | apply IH].
Qed.

Lemma embedding_loop_no_log cfg w text attempts : forall line,
  ~ In (Log line) (trace (embedding_loop cfg w text attempts)).
Proof.
  induction attempts as [| a rest IH]; intros line.
  - intros [].
  - cbn [embedding_loop]. unfold embedding_attempt, wait_before_retry.
    loop_cases cfg
      (api_manager_embedding_create w (EmbeddingCreate [text] ada_model) a);
      intros Hin.
    all: repeat match goal with
           | H : _ \/ _ |- _ => destruct H as [H | H]
           | H : False |- _ => destruct H
           | H : _ = Log _ |- _ => discriminate H
           end.
    all: exact (IH line Hin).
Qed.

(** A failure that may be retried, met before the last attempt, is
    followed by the next attempt. *)
Lemma embedding_loop_retries cfg w text n : forall start k call e,
  (start + n = num_retries)%nat ->
  In (Backend k call (Some e))
     (trace (embedding_loop cfg w text (seq start n))) ->
  retryable e = true ->
  (k < num_retries - 1)%nat ->
  exists failure,
    In (Backend (S k) call failure)
       (trace (embedding_loop cfg w text (seq start n))).
Proof.
  induction n as [| n IH]; intros start k call e Hsum.
  - intros [].
  - cbn [seq embedding_loop]. unfold embedding_attempt, wait_before_retry.
    loop_cases cfg
      (api_manager_embedding_create w (EmbeddingCreate [text] ada_model) start);
      intros Hin Hretry Hk.
    all: repeat match goal with
           | H : _ \/ _ |- _ => destruct H as [H | H]
           | H : False |- _ => destruct H
           | H : Backend _ _ _ = Backend _ _ _ |- _ =>
               inversion H; clear H; subst
           | H : _ = Backend _ _ _ |- _ => discriminate H
           end.
    all: try discriminate Hretry.
    all: try (exfalso; unfold num_retries in *; lia).
    all: try solve
      [ (* the failure is met later in the loop *)
        assert (Hsum' : (S start + n = num_retries)%nat) by lia;
        destruct (IH (S start) _ _ _ Hsum' Hin Hretry Hk) as [failure Hnext];
        exists failure; repeat right; exact Hnext ].
    (* the failure is the one of this attempt: the next one follows *)
    all: try solve
      [ destruct n as [| n']; [exfalso; unfold num_retries in *; lia |];
        match goal with
        | |- context [embedding_loop _ _ _ (seq (S ?s) _)] =>
            destruct (embedding_loop_head cfg w text (S s) (seq (S (S s)) n'))
              as (tail & Hnext)
        end;
        cbn [seq]; rewrite Hnext;
        eexists; repeat (first [left; reflexivity | right]) ].
    all: unfold retryable in Hretry; cbn -[Z.eqb] in Hretry;
      rewrite (proj2 (Z.eqb_neq _ _)) in Hretry by assumption;
      discriminate Hretry.
Qed.

(** When every attempt is rate limited the loop sleeps after each of
    them and runs out. *)
Lemma embedding_loop_rate_limited cfg w text attempts :
  (forall k, In k attempts ->
     api_manager_embedding_create w (EmbeddingCreate [text] ada_model) k
     = Err RateLimitError) ->
  embedding_loop cfg w text attempts
  = mkRun
      (flat_map
         (fun k =>
            Backend k (EmbeddingCreate [text] ada_model) (Some RateLimitError)
            :: trace (wait_before_retry cfg (2 ^ (Z.of_nat k + 2))))
         attempts)
      (Returned None).
Proof.
  induction attempts as [| a rest IH]; intros Hall; [reflexivity |].
  cbn [embedding_loop flat_map]. unfold embedding_attempt.
  rewrite (Hall a (or_introl eq_refl)).
  rewrite IH by (intros k Hk; apply Hall; right; exact Hk).
  unfold wait_before_retry. destruct (debug_mode cfg); reflexivity.
Qed.

(** C7, as the specification words it, holds of neither embedding
    function: [get_ada_embedding] does not retry (a rate limit on its
    one request is the end of it), and [create_embedding_with_ada] sends
    the text with its newlines. *)
Lemma C7_counterexample :
  ~ embedding_as_specified (fun text w => trace (get_ada_embedding w text)) /\
  (forall cfg,
     ~ embedding_as_specified
         (fun text w => trace (create_embedding_with_ada cfg w text))).
Proof.
  split.
  - intros Hclaim.
    pose (w := Samples.failing_then 1 RateLimitError (Ok []) (Ok [])).
    destruct (Hclaim "a"%string w) as [_ Hretries].
    destruct (Hretries 0%nat (EmbeddingCreate ["a"%string] ada_model)
                RateLimitError) as [failure Hnext].
    + left. reflexivity.
    + reflexivity.
    + unfold num_retries. lia.
    + cbn in Hnext. destruct Hnext as [Hnext | []]. discriminate Hnext.
  - intros cfg Hclaim.
    pose (w := Samples.constant_world (Ok []) (Ok [])).
    pose (text := String "a" (String Py.newline_char "b")).
    destruct (Hclaim text w) as [Hnormalized _].
    specialize (Hnormalized 0%nat (EmbeddingCreate [text] ada_model) None).
    assert (Hin : In (Backend 0 (EmbeddingCreate [text] ada_model) None)
                     (trace (create_embedding_with_ada cfg w text)))
      by (left; reflexivity).
    specialize (Hnormalized Hin). discriminate Hnormalized.
Qed.

(** C7, amended.  [get_ada_embedding] replaces every newline of the
    text by a space and sends the result once: there is no retry, and a
    failure of the request is raised as it is.
    [create_embedding_with_ada] sends the text as it is given, newlines
    included, under the retry policy of the dispatcher: at most 10
    attempts, numbered from 0; a rate limit or a 502 met before the last
    attempt is followed by the next attempt; every sleep follows such a
    failure of an attempt [k] and lasts [2 ^ (k + 2)]; a failure with
    another status, and a 502 on the last attempt, is raised at once. *)
Theorem C7_embedding_operations cfg w text :
  (list_ascii_of_string (normalized text)
   = map (fun c => if Ascii.eqb c Py.newline_char then " "%char else c)
       (list_ascii_of_string text) /\
   let call := EmbeddingCreate [normalized text] ada_model in
   let answer := api_manager_embedding_create w call 0 in
   get_ada_embedding w text
   = mkRun [Backend 0 call (failure_of answer)]
       (match answer with Ok v => Returned v | Err e => Raised e end)) /\
  (let r := create_embedding_with_ada cfg w text in
   (forall k call failure,
       In (Backend k call failure) (trace r) ->
       call = EmbeddingCreate [text] ada_model) /\
   (exists made, (made <= 10)%nat /\ backend_attempts (trace r) = seq 0 made) /\
   retries_failures (trace r) /\
   (forall pre d post,
       trace r = pre ++ Sleep d :: post ->
       exists before k call e between,
         pre = before ++ Backend k call (Some e) :: between /\
         Forall (fun ev => is_line ev = true) between /\
         retryable e = true /\
         d = 2 ^ (Z.of_nat k + 2)) /\
   (forall k call e,
       In (Backend k call (Some e)) (trace r) ->
       ends_the_loop k e ->
       outcome_of r = Raised e /\
       exists pre, trace r = pre ++ [Backend k call (Some e)])).
Proof.
  split; [split |].
  - apply replace_char_chars.
  - unfold get_ada_embedding, embedding_attempt. fold (normalized text).
    destruct (api_manager_embedding_create w
                (EmbeddingCreate [normalized text] ada_model) 0);
      reflexivity.
  - unfold create_embedding_with_ada.
    split; [| split; [| split; [| split]]].
    + apply embedding_loop_calls.
    + apply embedding_loop_attempts.
    + intros k call e. apply embedding_loop_retries. reflexivity.
    + apply paced_sleep, embedding_loop_paced.
    + intros k call e Hin Hends.
      exact (embedding_loop_stops cfg w text _ k call e Hin Hends).
Qed.

Lemma C7_witness :
  let cfg := Samples.no_plugins_cfg false in
  let w := Samples.failing_then 1 RateLimitError (Ok [])
             (Err (APIError (Some 500))) in
  let text := String "a" (String Py.newline_char "b") in
  let call := EmbeddingCreate [text] ada_model in
  let r := create_embedding_with_ada cfg w text in
  trace r = [Backend 0 call (Some RateLimitError)]
            ++ Sleep 4 :: [Backend 1 call (Some (APIError (Some 500)))] /\
  ends_the_loop 1 (APIError (Some 500)) /\
  outcome_of r = Raised (APIError (Some 500)) /\
  (exists failure, In (Backend 1 call failure) (trace r)) /\
  (exists before k call' e between,
      [Backend 0 call (Some RateLimitError)]
      = before ++ Backend k call' (Some e) :: between /\
      Forall (fun ev => is_line ev = true) between /\
      retryable e = true /\
      4 = 2 ^ (Z.of_nat k + 2)).
Proof.
  intros cfg w text call r.
  assert (Htrace : trace r = [Backend 0 call (Some RateLimitError)]
            ++ Sleep 4 :: [Backend 1 call (Some (APIError (Some 500)))])
    by reflexivity.
  assert (Hends : ends_the_loop 1 (APIError (Some 500)))
    by (split; [reflexivity | left; reflexivity]).
  destruct (C7_embedding_operations cfg w text)
    as (_ & _ & _ & Hretries & Hsleep & Hstops).
  fold r call in Hretries, Hsleep, Hstops.
  split; [exact Htrace |]. split; [exact Hends |].
  split; [| split].
  - apply (Hstops 1%nat call (APIError (Some 500))); [| exact Hends].
    rewrite Htrace. right. right. left. reflexivity.
  - apply (Hretries 0%nat call RateLimitError).
    + rewrite Htrace. left. reflexivity.
    + reflexivity.
    + unfold num_retries. lia.
  - exact (Hsleep _ _ _ Htrace).
Defined.

(** C10.  When each of the 10 attempts of [create_embedding_with_ada]
    is rate limited the function runs out of its loop and gives [None]:
    the ten requests are made, each followed by its sleep, nothing is
    raised.  No run of the function writes to the log or ends the
    process.  When the function raises, it raises the failure of its
    last request, which is not a rate limit and which, if its status is
    502, is the failure of the last attempt. *)
Theorem C10_embedding_runs_out cfg w text :
  let r := create_embedding_with_ada cfg w text in
  ((forall k, (k < 10)%nat ->
      api_manager_embedding_create w (EmbeddingCreate [text] ada_model) k
      = Err RateLimitError) ->
   outcome_of r = Returned None /\
   backend_attempts (trace r) = seq 0 10 /\
   sleeps (trace r) = [4; 8; 16; 32; 64; 128; 256; 512; 1024; 2048]) /\
  (forall line, ~ In (Log line) (trace r)) /\
  (forall code, outcome_of r <> Exited code) /\
  (forall e,
      outcome_of r = Raised e ->
      exists k pre,
        trace r = pre ++ [Backend k (EmbeddingCreate [text] ada_model) (Some e)] /\
        e <> RateLimitError /\
        (exn_http_status e = Some 502 -> k = 9%nat)).
Proof.
  intros r. subst r. unfold create_embedding_with_ada.
  split; [| split; [| split]].
  - intros Hall.
    rewrite embedding_loop_rate_limited.
    + unfold wait_before_retry. destruct (debug_mode cfg); repeat split.
    + intros k Hk. apply Hall. apply in_seq in Hk. unfold num_retries in Hk. lia.
  - apply embedding_loop_no_log.
  - apply embedding_loop_not_exited.
  - intros e Hraised.
    destruct (embedding_loop_raised cfg w text _ e Hraised)
      as (k & [Hrate Hgate] & pre & Hpre).
    exists k, pre. split; [exact Hpre |]. split.
    + intros ->. discriminate Hrate.
    + intros Hstatus. destruct Hgate as [Hgate | Hlast]; [| exact Hlast].
      exfalso.
      destruct e as [| st | st | cls msg]; simpl in Hstatus; try discriminate;
        subst st; discriminate Hgate.
Qed.

Lemma C10_witness :
  let cfg := Samples.no_plugins_cfg false in
  let w := Samples.constant_world (Ok []) (Err RateLimitError) in
  let r := create_embedding_with_ada cfg w "text" in
  (forall k, (k < 10)%nat ->
     api_manager_embedding_create w (EmbeddingCreate ["text"%string] ada_model) k
     = Err RateLimitError) /\
  outcome_of r = Returned None /\
  backend_attempts (trace r) = seq 0 10 /\
  let w' := Samples.failing_then 9 RateLimitError (Ok [])
              (Err (APIError (Some 502))) in
  let r' := create_embedding_with_ada cfg w' "text" in
  outcome_of r' = Raised (APIError (Some 502)) /\
  exists k pre,
    trace r'
    = pre ++ [Backend k (EmbeddingCreate ["text"%string] ada_model)
                (Some (APIError (Some 502)))] /\
    (exn_http_status (APIError (Some 502)) = Some 502 -> k = 9%nat).
Proof.
  intros cfg w r.
  assert (Hall : forall k, (k < 10)%nat ->
            api_manager_embedding_create w
              (EmbeddingCreate ["text"%string] ada_model) k
            = Err RateLimitError)
    by (intros k _; reflexivity).
  split; [exact Hall |].
  destruct (proj1 (C10_embedding_runs_out cfg w "text") Hall)
    as (Hout & Hmade & _).
  split; [exact Hout |]. split; [exact Hmade |].
  intros w' r'.
  assert (Hraised : outcome_of r' = Raised (APIError (Some 502)))
    by reflexivity.
  split; [exact Hraised |].
  destruct (proj2 (proj2 (proj2 (C10_embedding_runs_out cfg w' "text")))
              (APIError (Some 502)) Hraised)
    as (k & pre & Hpre & _ & Hlast).
  exists k, pre. split; assumption.
Defined.


(** ** A successful attempt *)

Lemma sleeps_app (a b : list event) : sleeps (a ++ b) = sleeps a ++ sleeps b.
Proof.
  induction a as [| ev a IH]; [reflexivity |].
  destruct ev; simpl; rewrite IH; reflexivity.
Qed.

(** A trace whose attempts count up from 0 has made [k + 1] of them
    when no backend call follows that of the attempt [k]. *)
Lemma attempts_up_to (tr pre post : list event) made k call failure :
  backend_attempts tr = seq 0 made ->
  tr = pre ++ Backend k call failure :: post ->
  Forall (fun ev => is_aside ev = true) post ->
  backend_attempts tr = seq 0 (S k).
Proof.
  intros Hseq -> Hpost. rewrite Hseq.
  rewrite backend_attempts_app in Hseq. cbn in Hseq.
  rewrite (backend_attempts_aside _ Hpost) in Hseq.
  destruct made as [| made]; [destruct (backend_attempts pre); discriminate |].
  rewrite seq_S in Hseq. apply app_inj_tail in Hseq. destruct Hseq as [_ Hk].
  cbn in Hk. subst k. reflexivity.
Qed.

(** The loop ends at the first attempt that succeeds, with the response
    of that attempt, having slept once after each attempt before it. *)
Lemma retry_loop_succeeds cfg w req n : forall start warned k call,
  In (Backend k call None)
     (trace (retry_loop cfg w req (seq start n) warned)) ->
  exists response pre,
    backend_answer cfg w req k = Ok response /\
    outcome_of (retry_loop cfg w req (seq start n) warned)
    = Returned (Some response) /\
    trace (retry_loop cfg w req (seq start n) warned)
    = pre ++ [Backend k call None] /\
    (start <= k)%nat /\
    sleeps (trace (retry_loop cfg w req (seq start n) warned))
    = map backoff_of (seq start (k - start)).
Proof.
  induction n as [| n IH]; intros start warned k call.
  - intros [].
  - cbn [seq retry_loop]. unfold backend_attempt, wait_before_retry.
    loop_cases cfg (backend_answer cfg w req start); intros Hin.
    all: repeat match goal with
           | H : _ \/ _ |- _ => destruct H as [H | H]
           | H : False |- _ => destruct H
           | H : Backend _ _ (Some _) = Backend _ _ None |- _ => discriminate H
           | H : Backend _ _ None = Backend _ _ None |- _ =>
               inversion H; clear H; subst
           | H : _ = Backend _ _ _ |- _ => discriminate H
           end.
    all: try solve
      [ eexists; exists []; split; [eassumption |];
        rewrite Nat.sub_diag; repeat split; lia ].
    all: destruct (IH _ _ _ _ Hin)
        as (response & pre & Hanswer' & Hout & Hpre & Hle & Hsleeps);
      exists response;
      match goal with
      | |- exists pre', _ /\ _ /\ ?tr = _ /\ _ /\ _ =>
          assert (Hlast : exists pre', tr = pre' ++ [Backend k call None])
            by (rewrite Hpre; extend_prefix pre)
      end;
      destruct Hlast as [pre' Hpre']; exists pre';
      (split; [exact Hanswer' |]); (split; [exact Hout |]);
      (split; [exact Hpre' |]); (split; [lia |]);
      cbn [sleeps]; rewrite Hsleeps;
      replace (k - start)%nat with (S (k - S start)) by lia;
      reflexivity.
Qed.

Lemma create_chat_completion_succeeds cfg w req k call :
  let r := create_chat_completion cfg w req in
  In (Backend k call None) (trace r) ->
  exists response pre,
    backend_answer cfg w req k = Ok response /\
    trace r = pre ++ Backend k call None :: trace (deliver cfg (Some response)) /\
    outcome_of r = outcome_of (deliver cfg (Some response)) /\
    backend_attempts (trace r) = seq 0 (S k) /\
    sleeps (trace r) = map backoff_of (seq 0 k).
Proof.
  intros r Hin.
  destruct (create_chat_completion_shape cfg w req)
    as (head & [Hhead _] & [[message Hshort] | (tail & [Htail _] & Htrace & Hout)]);
    fold r in Hin.
  { exfalso. fold r in Hshort. rewrite Hshort in Hin.
    exact (In_backend_aside _ _ _ _ Hhead Hin). }
  fold r in Htrace, Hout.
  assert (Hloop : In (Backend k call None)
                     (trace (retry_loop cfg w req (seq 0 num_retries) false))).
  { rewrite Htrace in Hin.
    apply in_app_or in Hin. destruct Hin as [Hin | Hin];
      [exfalso; exact (In_backend_aside _ _ _ _ Hhead Hin) |].
    apply in_app_or in Hin. destruct Hin as [Hin | Hin]; [exact Hin |].
    exfalso; exact (In_backend_aside _ _ _ _ Htail Hin). }
  destruct (retry_loop_succeeds _ _ _ _ _ _ _ _ Hloop)
    as (response & pre & Hanswer & Hreturned & Hpre & _ & Hsleeps).
  rewrite Hreturned in Hout. destruct Hout as [-> Hout].
  assert (Hshape : trace r = (head ++ pre)
                     ++ Backend k call None :: trace (deliver cfg (Some response))).
  { rewrite Htrace, Hpre, <- !app_assoc. reflexivity. }
  exists response, (head ++ pre).
  split; [exact Hanswer |]. split; [exact Hshape |]. split; [exact Hout |].
  split.
  - destruct (create_chat_completion_attempts cfg w req) as (made & _ & Hmade).
    exact (attempts_up_to _ _ _ _ _ _ _ Hmade Hshape Htail).
  - rewrite Htrace, !sleeps_app, (sleeps_aside _ Hhead), (sleeps_aside _ Htail).
    rewrite Hsleeps, Nat.sub_0_r, app_nil_r. reflexivity.
Qed.

(** X1.  A successful attempt [k] ends the dispatch: the call is the
    last backend call of the trace, the attempts made are 0 .. k, the
    dispatcher has slept 2 ^ (j + 2) after each attempt j < k and no
    more, and the dispatch ends as the delivery of the response of that
    attempt ends. *)
Theorem X1_success_ends_the_dispatch cfg w req k call :
  let r := create_chat_completion cfg w req in
  In (Backend k call None) (trace r) ->
  backend_attempts (trace r) = seq 0 (S k) /\
  sleeps (trace r) = map (fun j => 2 ^ (Z.of_nat j + 2)) (seq 0 k) /\
  exists response pre post,
    backend_answer cfg w req k = Ok response /\
    trace r = pre ++ Backend k call None :: post /\
    Forall (fun ev => is_aside ev = true) post /\
    outcome_of r = outcome_of (deliver cfg (Some response)).
Proof.
  intros r Hin.
  destruct (create_chat_completion_succeeds cfg w req k call Hin)
    as (response & pre & Hanswer & Htrace & Hout & Hmade & Hsleeps).
  split; [exact Hmade |]. split; [exact Hsleeps |].
  exists response, pre, (trace (deliver cfg (Some response))).
  split; [exact Hanswer |]. split; [exact Htrace |].
  split; [apply deliver_quiet | exact Hout].
Qed.

Lemma X1_witness :
  let cfg := Samples.no_plugins_cfg true in
  let w := Samples.failing_then 3 RateLimitError (Ok ["4"%string]) (Ok []) in
  let r := create_chat_completion cfg w Samples.calculator_request in
  let call := backend_request cfg Samples.calculator_request in
  In (Backend 3 call None) (trace r) /\
  backend_attempts (trace r) = [0; 1; 2; 3]%nat /\
  sleeps (trace r) = [4; 8; 16].
Proof.
  intros cfg w r call.
  assert (Hin : In (Backend 3 call None) (trace r)).
  { vm_compute. do 14 right. left. reflexivity. }
  split; [exact Hin |].
  destruct (X1_success_ends_the_dispatch cfg w Samples.calculator_request
              3 call Hin) as (Hmade & Hsleeps & _).
  split; [exact Hmade | exact Hsleeps].
Defined.

(** ** The delivery of a response *)

Lemma plugins_on_response_run ps : forall index resp,
  plugins_on_response ps index resp
  = mkRun (post_processing ps index) (Returned (post_processed ps resp)).
Proof.
  induction ps as [| plugin rest IH]; intros index resp; [reflexivity |].
  cbn [plugins_on_response post_processing post_processed fold_left].
  destruct (can_handle_on_response plugin); cbn.
  - rewrite IH. reflexivity.
  - apply IH.
Qed.

Lemma deliver_first_choice cfg first others :
  use_local_model cfg = false ->
  deliver cfg (Some (Envelope (first :: others)))
  = mkRun (post_processing (plugins cfg) 0)
      (Returned (post_processed (plugins cfg) (Text first))).
Proof.
  intros Hlocal. unfold deliver. rewrite Hlocal. cbn.
  rewrite plugins_on_response_run. reflexivity.
Qed.

Lemma deliver_as_it_is cfg response :
  use_local_model cfg = true ->
  deliver cfg (Some response)
  = mkRun (post_processing (plugins cfg) 0)
      (Returned
         (post_processed (plugins cfg)
            (match response with
             | Decoded text => Text text
             | Envelope choices => ResponseObject choices
             end))).
Proof.
  intros Hlocal. unfold deliver. rewrite Hlocal.
  destruct response; cbn; rewrite plugins_on_response_run; reflexivity.
Qed.

(** The answer of an attempt when the local backend is not selected. *)
Lemma backend_answer_service cfg w req k :
  use_local_model cfg = false ->
  backend_answer cfg w req k
  = match api_manager_create_chat_completion w (backend_request cfg req) k with
    | Ok choices => Ok (Envelope choices)
    | Err e => Err e
    end.
Proof.
  intros Hlocal. unfold backend_answer. rewrite Hlocal.
  destruct (use_azure cfg); reflexivity.
Qed.

(** X2.  With the hosted or the managed service, a successful attempt
    gives the message content of the first choice of its response,
    passed through the [on_response] of every plugin that opts in, each
    applied to the result of the one before it in the order of the
    registry; these plugin calls are the only events after the backend
    call. *)
Theorem X2_first_choice_post_processed cfg w req k call first others :
  let r := create_chat_completion cfg w req in
  use_local_model cfg = false ->
  In (Backend k call None) (trace r) ->
  api_manager_create_chat_completion w (backend_request cfg req) k
  = Ok (first :: others) ->
  outcome_of r = Returned (post_processed (plugins cfg) (Text first)) /\
  exists pre,
    trace r = pre ++ Backend k call None :: post_processing (plugins cfg) 0.
Proof.
  intros r Hlocal Hin Hchoices.
  destruct (create_chat_completion_succeeds cfg w req k call Hin)
    as (response & pre & Hanswer & Htrace & Hout & _).
  fold r in Htrace, Hout.
  rewrite (backend_answer_service cfg w req k Hlocal), Hchoices in Hanswer.
  injection Hanswer as <-.
  rewrite (deliver_first_choice cfg first others Hlocal) in Htrace, Hout.
  split; [exact Hout | exists pre; exact Htrace].
Qed.

Lemma X2_witness :
  let ps := [MoreSamples.suffix_plugin "!"; Samples.idle_plugin;
             MoreSamples.suffix_plugin "?"] in
  let cfg := MoreSamples.cfg_with false false false ps in
  let w := Samples.failing_then 1 (APIError (Some 502))
             (Ok ["4"%string; "5"%string]) (Ok []) in
  let r := create_chat_completion cfg w Samples.calculator_request in
  let call := backend_request cfg Samples.calculator_request in
  use_local_model cfg = false /\
  In (Backend 1 call None) (trace r) /\
  api_manager_create_chat_completion w call 1 = Ok ["4"%string; "5"%string] /\
  outcome_of r = Returned (Text "4!?").
Proof.
  intros ps cfg w r call.
  assert (Hin : In (Backend 1 call None) (trace r)).
  { vm_compute. do 5 right. left. reflexivity. }
  split; [reflexivity |]. split; [exact Hin |]. split; [reflexivity |].
  exact (proj1 (X2_first_choice_post_processed cfg w Samples.calculator_request
                  1 call "4"%string ["5"%string] eq_refl Hin eq_refl)).
Defined.

(** X3.  A response of the hosted or the managed service that has no
    choice makes the dispatch raise an [IndexError]: the failed
    extraction is outside of the retry loop, so the call is not tried
    again, nothing is slept after it and no plugin post-processes
    anything. *)
Theorem X3_no_choice_raises cfg w req k call :
  let r := create_chat_completion cfg w req in
  use_local_model cfg = false ->
  In (Backend k call None) (trace r) ->
  api_manager_create_chat_completion w (backend_request cfg req) k = Ok [] ->
  outcome_of r = Raised (PyError "IndexError" "list index out of range") /\
  (exists pre, trace r = pre ++ [Backend k call None]) /\
  backend_attempts (trace r) = seq 0 (S k).
Proof.
  intros r Hlocal Hin Hchoices.
  destruct (create_chat_completion_succeeds cfg w req k call Hin)
    as (response & pre & Hanswer & Htrace & Hout & Hmade & _).
  fold r in Htrace, Hout, Hmade.
  rewrite (backend_answer_service cfg w req k Hlocal), Hchoices in Hanswer.
  injection Hanswer as <-.
  unfold deliver in Htrace, Hout. rewrite Hlocal in Htrace, Hout.
  cbn in Htrace, Hout.
  split; [exact Hout |]. split; [exists pre; exact Htrace | exact Hmade].
Qed.

Lemma X3_witness :
  let cfg := MoreSamples.cfg_with false false false
               [MoreSamples.suffix_plugin "!"] in
  let w := Samples.constant_world (Ok []) (Ok []) in
  let r := create_chat_completion cfg w Samples.calculator_request in
  let call := backend_request cfg Samples.calculator_request in
  use_local_model cfg = false /\
  In (Backend 0 call None) (trace r) /\
  api_manager_create_chat_completion w call 0 = Ok [] /\
  outcome_of r = Raised (PyError "IndexError" "list index out of range").
Proof.
  intros cfg w r call.
  assert (Hin : In (Backend 0 call None) (trace r))
    by (right; left; reflexivity).
  split; [reflexivity |]. split; [exact Hin |]. split; [reflexivity |].
  exact (proj1 (X3_no_choice_raises cfg w Samples.calculator_request
                  0 call eq_refl Hin eq_refl)).
Defined.

(** X4.  With the local backend selected (and the managed one not),
    the text decoded by the local model is what is post-processed and
    returned, as it is. *)
Theorem X4_local_text_as_it_is cfg w req k call text :
  let r := create_chat_completion cfg w req in
  use_azure cfg = false ->
  use_local_model cfg = true ->
  In (Backend k call None) (trace r) ->
  local_model_generate w (backend_request cfg req) k = Ok text ->
  outcome_of r = Returned (post_processed (plugins cfg) (Text text)).
Proof.
  intros r Hazure Hlocal Hin Htext.
  destruct (create_chat_completion_succeeds cfg w req k call Hin)
    as (response & pre & Hanswer & _ & Hout & _).
  fold r in Hout.
  unfold backend_answer in Hanswer. rewrite Hazure, Hlocal, Htext in Hanswer.
  injection Hanswer as <-.
  rewrite (deliver_as_it_is cfg _ Hlocal) in Hout. exact Hout.
Qed.

Lemma X4_witness :
  let cfg := MoreSamples.cfg_with false false true
               [MoreSamples.suffix_plugin "!"] in
  let w := Samples.constant_world (Ok ["4"%string]) (Ok []) in
  let r := create_chat_completion cfg w Samples.calculator_request in
  let call := backend_request cfg Samples.calculator_request in
  use_azure cfg = false /\ use_local_model cfg = true /\
  In (Backend 0 call None) (trace r) /\
  local_model_generate w call 0 = Ok "4"%string /\
  outcome_of r = Returned (Text "4!").
Proof.
  intros cfg w r call.
  assert (Hin : In (Backend 0 call None) (trace r))
    by (right; left; reflexivity).
  split; [reflexivity |]. split; [reflexivity |]. split; [exact Hin |].
  split; [reflexivity |].
  exact (X4_local_text_as_it_is cfg w Samples.calculator_request
           0 call "4"%string eq_refl eq_refl Hin eq_refl).
Defined.

(** X5.  When [use_azure] and [use_local_model] are both set, the
    managed service is the backend called (the first test of the
    [if] chain), with the deployment id of the model, but the response
    is treated as that of the local model: no text is taken out of it,
    and the response object itself is post-processed and returned. *)
Theorem X5_both_flags_return_the_response cfg w req k call choices :
  let r := create_chat_completion cfg w req in
  use_azure cfg = true ->
  use_local_model cfg = true ->
  In (Backend k call None) (trace r) ->
  api_manager_create_chat_completion w (backend_request cfg req) k = Ok choices ->
  call = AzureChatCompletion (get_azure_deployment_id_for_model cfg (model req))
           (model req) (messages req) (temperature req) (max_tokens req) /\
  outcome_of r = Returned (post_processed (plugins cfg) (ResponseObject choices)).
Proof.
  intros r Hazure Hlocal Hin Hchoices.
  split.
  - rewrite (create_chat_completion_calls cfg w req k call None Hin).
    unfold backend_request. rewrite Hazure. reflexivity.
  - destruct (create_chat_completion_succeeds cfg w req k call Hin)
      as (response & pre & Hanswer & _ & Hout & _).
    fold r in Hout.
    unfold backend_answer in Hanswer. rewrite Hazure, Hchoices in Hanswer.
    injection Hanswer as <-.
    rewrite (deliver_as_it_is cfg _ Hlocal) in Hout. exact Hout.
Qed.

Lemma X5_witness :
  let cfg := MoreSamples.cfg_with false true true [] in
  let w := Samples.constant_world (Ok ["4"%string]) (Ok []) in
  let r := create_chat_completion cfg w Samples.calculator_request in
  let call := backend_request cfg Samples.calculator_request in
  use_azure cfg = true /\ use_local_model cfg = true /\
  In (Backend 0 call None) (trace r) /\
  api_manager_create_chat_completion w call 0 = Ok ["4"%string] /\
  outcome_of r = Returned (ResponseObject ["4"%string]).
Proof.
  intros cfg w r call.
  assert (Hin : In (Backend 0 call None) (trace r)) by (left; reflexivity).
  split; [reflexivity |]. split; [reflexivity |]. split; [exact Hin |].
  split; [reflexivity |].
  exact (proj2 (X5_both_flags_return_the_response cfg w
                  Samples.calculator_request 0 call ["4"%string]
                  eq_refl eq_refl Hin eq_refl)).
Defined.

(** ** Retries *)

Lemma retry_loop_head cfg w req a rest warned :
  exists tail,
    trace (retry_loop cfg w req (a :: rest) warned)
    = Backend a (backend_request cfg req)
        (failure_of (backend_answer cfg w req a))
      :: tail.
Proof.
  cbn [retry_loop]. unfold backend_attempt, wait_before_retry.
  loop_cases cfg (backend_answer cfg w req a); eexists; reflexivity.
Qed.

(** In the loop, a failure that may be retried and is met before the
    last attempt is followed by its sleep and then by the next attempt. *)
Lemma retry_loop_retries cfg w req n : forall start warned k call e,
  (start + n = num_retries)%nat ->
  In (Backend k call (Some e))
     (trace (retry_loop cfg w req (seq start n) warned)) ->
  retryable e = true ->
  (k < num_retries - 1)%nat ->
  exists pre between failure post,
    trace (retry_loop cfg w req (seq start n) warned)
    = pre ++ Backend k call (Some e) :: between
        ++ Sleep (backoff_of k) :: Backend (S k) call failure :: post /\
    Forall (fun ev => is_line ev = true) between.
Proof.
  induction n as [| n IH]; intros start warned k call e Hsum.
  - intros [].
  - cbn [seq retry_loop]. unfold backend_attempt, wait_before_retry.
    loop_cases cfg (backend_answer cfg w req start); intros Hin Hretry Hk.
    all: repeat match goal with
           | H : _ \/ _ |- _ => destruct H as [H | H]
           | H : False |- _ => destruct H
           | H : Backend _ _ _ = Backend _ _ _ |- _ =>
               inversion H; clear H; subst
           | H : _ = Backend _ _ _ |- _ => discriminate H
           end.
    all: try discriminate Hretry.
    all: try (exfalso; unfold num_retries in *; lia).
    all: try solve
      [ (* the failure is met later in the loop *)
        assert (Hsum' : (S start + n = num_retries)%nat) by lia;
        destruct (IH (S start) _ _ _ _ Hsum' Hin Hretry Hk)
          as (pre & between & failure & post & Hrest & Hlines);
        rewrite Hrest;
        first
          [ eexists (_ :: _ :: pre), between, failure, post;
            split; [reflexivity | exact Hlines]
          | eexists (_ :: _ :: _ :: pre), between, failure, post;
            split; [reflexivity | exact Hlines]
          | eexists (_ :: _ :: _ :: _ :: pre), between, failure, post;
            split; [reflexivity | exact Hlines]
          | eexists (_ :: _ :: _ :: _ :: _ :: pre), between, failure, post;
            split; [reflexivity | exact Hlines] ] ].
    (* the failure is the one of this attempt *)
    all: try solve
      [ destruct n as [| n']; [exfalso; unfold num_retries in *; lia |];
        match goal with
        | |- context [retry_loop _ _ _ (seq (S ?s) _) ?wu] =>
            destruct (retry_loop_head cfg w req (S s) (seq (S (S s)) n') wu)
              as (tail & Hnext)
        end;
        cbn [seq]; rewrite Hnext;
        exists [];
        first
          [ eexists [], _, _; split; [reflexivity | repeat constructor]
          | eexists [_], _, _; split; [reflexivity | repeat constructor]
          | eexists [_; _], _, _; split; [reflexivity | repeat constructor]
          | eexists [_; _; _], _, _; split; [reflexivity | repeat constructor] ] ].
    all: unfold retryable in Hretry; cbn -[Z.eqb] in Hretry;
      rewrite (proj2 (Z.eqb_neq _ _)) in Hretry by assumption;
      discriminate Hretry.
Qed.

(** X6.  A rate limit or a 502 met before the last attempt is retried:
    after the failed attempt [k] come console and log lines only, then
    the sleep of 2 ^ (k + 2), then at once the attempt [k + 1] with
    the same request. *)
Theorem X6_failure_is_retried cfg w req k call e :
  let r := create_chat_completion cfg w req in
  In (Backend k call (Some e)) (trace r) ->
  retryable e = true ->
  (k < 9)%nat ->
  exists pre between failure post,
    trace r
    = pre ++ Backend k call (Some e) :: between
        ++ Sleep (2 ^ (Z.of_nat k + 2)) :: Backend (S k) call failure :: post /\
    Forall (fun ev => is_line ev = true) between.
Proof.
  intros r Hin Hretry Hk.
  destruct (backend_event_in_loop cfg w req k call (Some e) Hin)
    as (Hloop & head & tail & Htrace & _).
  fold r in Htrace.
  destruct (retry_loop_retries cfg w req num_retries 0%nat false k call e
              eq_refl Hloop Hretry Hk)
    as (pre & between & failure & post & Hloop_trace & Hlines).
  exists (head ++ pre), between, failure, (post ++ tail).
  split; [| exact Hlines].
  rewrite Htrace, Hloop_trace. unfold backoff_of.
  rewrite <- !app_assoc. cbn [app]. rewrite <- !app_assoc. reflexivity.
Qed.

Lemma X6_witness :
  let cfg := Samples.no_plugins_cfg false in
  let w := Samples.failing_then 2 (Timeout (Some 502)) (Ok ["4"%string]) (Ok []) in
  let r := create_chat_completion cfg w Samples.calculator_request in
  let call := backend_request cfg Samples.calculator_request in
  In (Backend 1 call (Some (Timeout (Some 502)))) (trace r) /\
  retryable (Timeout (Some 502)) = true /\
  (1 < 9)%nat /\
  exists pre between failure post,
    trace r
    = pre ++ Backend 1 call (Some (Timeout (Some 502))) :: between
        ++ Sleep 8 :: Backend 2 call failure :: post /\
    Forall (fun ev => is_line ev = true) between.
Proof.
  intros cfg w r call.
  assert (Hin : In (Backend 1 call (Some (Timeout (Some 502)))) (trace r))
    by (right; right; left; reflexivity).
  assert (Hk : (1 < 9)%nat) by lia.
  split; [exact Hin |]. split; [reflexivity |]. split; [exact Hk |].
  exact (X6_failure_is_retried cfg w Samples.calculator_request 1 call
           (Timeout (Some 502)) Hin eq_refl Hk).
Defined.

(** ** The time slept *)

Lemma backoff_of_pos (attempt : nat) : 0 < backoff_of attempt.
Proof. unfold backoff_of. apply Z.pow_pos_nonneg; lia. Qed.

Lemma budget_nonneg (attempts : list nat) :
  0 <= fold_right Z.add 0 (map backoff_of attempts).
Proof.
  induction attempts as [| a rest IH]; cbn [map fold_right]; [lia |].
  pose proof (backoff_of_pos a). lia.
Qed.

Lemma retry_loop_total_slept cfg w req attempts : forall warned,
  0 <= total_slept (trace (retry_loop cfg w req attempts warned))
  <= fold_right Z.add 0 (map backoff_of attempts).
Proof.
  unfold total_slept.
  induction attempts as [| a rest IH]; intros warned.
  - cbn. lia.
  - pose proof (backoff_of_pos a) as Hpos.
    pose proof (budget_nonneg rest) as Hrest.
    cbn [map fold_right retry_loop]. unfold backend_attempt, wait_before_retry.
    loop_cases cfg (backend_answer cfg w req a);
      cbn [sleeps fold_right]; fold (backoff_of a);
      try lia.
    all: match goal with
         | |- context [retry_loop _ _ _ _ ?wu] => specialize (IH wu)
         end; lia.
Qed.

Lemma embedding_loop_total_slept cfg w text attempts :
  0 <= total_slept (trace (embedding_loop cfg w text attempts))
  <= fold_right Z.add 0 (map backoff_of attempts).
Proof.
  unfold total_slept.
  induction attempts as [| a rest IH].
  - cbn. lia.
  - pose proof (backoff_of_pos a) as Hpos.
    pose proof (budget_nonneg rest) as Hrest.
    cbn [map fold_right embedding_loop].
    unfold embedding_attempt, wait_before_retry.
    loop_cases cfg
      (api_manager_embedding_create w (EmbeddingCreate [text] ada_model) a);
      cbn [sleeps fold_right]; fold (backoff_of a);
      lia.
Qed.

(** X7.  The time slept by one call of [create_chat_completion] or of
    [create_embedding_with_ada] is at most 4 + 8 + ... + 2048 = 4092
    in all, whatever the backend answers. *)
Theorem X7_time_slept_is_bounded cfg w req text :
  0 <= total_slept (trace (create_chat_completion cfg w req)) <= 4092 /\
  0 <= total_slept (trace (create_embedding_with_ada cfg w text)) <= 4092.
Proof.
  split.
  - destruct (create_chat_completion_shape cfg w req)
      as (head & [Hhead _] & [[message Hshort] | (tail & [Htail _] & Htrace & _)]).
    + rewrite Hshort. cbn [trace]. unfold total_slept.
      rewrite (sleeps_aside _ Hhead). cbn. lia.
    + pose proof (retry_loop_total_slept cfg w req (seq 0 num_retries) false)
        as Hloop.
      unfold total_slept in *.
      rewrite Htrace, !sleeps_app, (sleeps_aside _ Hhead), (sleeps_aside _ Htail).
      rewrite app_nil_r. cbn [app].
      change (fold_right Z.add 0 (map backoff_of (seq 0 num_retries)))
        with 4092 in Hloop.
      exact Hloop.
  - pose proof (embedding_loop_total_slept cfg w text (seq 0 num_retries))
      as Hloop.
    change (fold_right Z.add 0 (map backoff_of (seq 0 num_retries)))
      with 4092 in Hloop.
    exact Hloop.
Qed.

(** ** The end of the budget *)

Lemma In_backend_attempts (tr : list event) k call failure :
  In (Backend k call failure) tr -> In k (backend_attempts tr).
Proof.
  induction tr as [| ev tr IH]; intros Hin; [destruct Hin |].
  destruct Hin as [-> | Hin].
  - left. reflexivity.
  - destruct ev; cbn [backend_attempts]; try (apply IH; exact Hin).
    right. apply IH. exact Hin.
Qed.

(** The loop runs out only through a rate limit on the last attempt. *)
Lemma retry_loop_runs_out cfg w req n : forall start warned,
  (start + S n = num_retries)%nat ->
  outcome_of (retry_loop cfg w req (seq start (S n)) warned) = Returned None ->
  In (Backend (num_retries - 1) (backend_request cfg req) (Some RateLimitError))
     (trace (retry_loop cfg w req (seq start (S n)) warned)).
Proof.
  induction n as [| n IH]; intros start warned Hsum.
  - cbn [seq retry_loop]. unfold backend_attempt, wait_before_retry.
    assert (start = (num_retries - 1)%nat) by lia. subst start.
    loop_cases cfg (backend_answer cfg w req (num_retries - 1)%nat);
      intros Hout; try discriminate Hout; try contradiction.
    all: left; reflexivity.
  - remember (S n) as m eqn:Hm.
    cbn [seq retry_loop]. unfold backend_attempt, wait_before_retry.
    loop_cases cfg (backend_answer cfg w req start);
      intros Hout; try discriminate Hout.
    all: repeat right; subst m; apply IH; [lia | exact Hout].
Qed.

(** A rate limit on the last attempt is still slept on. *)
Lemma retry_loop_last_sleep cfg w req n : forall start warned call,
  (start + n = num_retries)%nat ->
  In (Backend (num_retries - 1) call (Some RateLimitError))
     (trace (retry_loop cfg w req (seq start n) warned)) ->
  exists pre between,
    trace (retry_loop cfg w req (seq start n) warned)
    = pre ++ Backend (num_retries - 1) call (Some RateLimitError)
        :: between ++ [Sleep 2048] /\
    Forall (fun ev => is_line ev = true) between.
Proof.
  induction n as [| n IH]; intros start warned call Hsum.
  - intros [].
  - cbn [seq retry_loop]. unfold backend_attempt, wait_before_retry.
    loop_cases cfg (backend_answer cfg w req start); intros Hin.
    all: repeat match goal with
           | H : _ \/ _ |- _ => destruct H as [H | H]
           | H : False |- _ => destruct H
           | H : Backend _ _ _ = Backend _ _ _ |- _ =>
               inversion H; clear H; subst
           | H : _ = Backend _ _ _ |- _ => discriminate H
           end.
    all: try solve
      [ assert (Hsum' : (S start + n = num_retries)%nat) by lia;
        destruct (IH (S start) _ _ Hsum' Hin) as (pre & between & Hrest & Hlines);
        rewrite Hrest;
        first
          [ eexists (_ :: _ :: pre), between;
            split; [reflexivity | exact Hlines]
          | eexists (_ :: _ :: _ :: pre), between;
            split; [reflexivity | exact Hlines]
          | eexists (_ :: _ :: _ :: _ :: pre), between;
            split; [reflexivity | exact Hlines]
          | eexists (_ :: _ :: _ :: _ :: _ :: pre), between;
            split; [reflexivity | exact Hlines] ] ].
    all: assert (n = 0%nat) by (unfold num_retries in *; lia); subst n;
      cbn [seq retry_loop ret trace];
      exists [];
      first
        [ eexists []; split; [reflexivity | repeat constructor]
        | eexists [_]; split; [reflexivity | repeat constructor]
        | eexists [_; _]; split; [reflexivity | repeat constructor]
        | eexists [_; _; _]; split; [reflexivity | repeat constructor] ].
Qed.

Lemma deliver_response_not_exited cfg response code :
  outcome_of (deliver cfg (Some response)) <> Exited code.
Proof.
  unfold deliver.
  destruct (use_local_model cfg), response as [[| first others] | text]; cbn;
    try rewrite plugins_on_response_run; discriminate.
Qed.

(** X8.  [create_chat_completion] ends the process in one case only:
    outside of debug mode, after ten attempts of which the last was
    rate limited; the exit status is then 1. *)
Theorem X8_exit_only_when_run_out cfg w req code :
  let r := create_chat_completion cfg w req in
  outcome_of r = Exited code ->
  code = 1 /\
  debug_mode cfg = false /\
  backend_attempts (trace r) = seq 0 10 /\
  In (Backend 9 (backend_request cfg req) (Some RateLimitError)) (trace r).
Proof.
  intros r Hexit.
  destruct (create_chat_completion_shape cfg w req)
    as (head & _ & [[message Hshort] | (tail & _ & Htrace & Hout)]).
  { fold r in Hshort. rewrite Hshort in Hexit. discriminate Hexit. }
  fold r in Htrace, Hout.
  destruct (outcome_of (retry_loop cfg w req (seq 0 num_retries) false))
    as [[response |] | e | c] eqn:Hloop; try contradiction.
  - destruct Hout as [_ Hout]. rewrite Hexit in Hout. symmetry in Hout.
    exfalso. exact (deliver_response_not_exited _ _ _ Hout).
  - destruct Hout as [_ Hout]. rewrite Hexit in Hout.
    cbn in Hout. destruct (debug_mode cfg); [discriminate Hout |].
    injection Hout as ->.
    pose proof (retry_loop_runs_out cfg w req 9 0%nat false eq_refl Hloop)
      as Hlast.
    assert (Hin : In (Backend 9 (backend_request cfg req) (Some RateLimitError))
                     (trace r)).
    { rewrite Htrace. apply in_or_app. right. apply in_or_app. left.
      exact Hlast. }
    repeat split; try exact Hin.
    destruct (create_chat_completion_attempts cfg w req) as (made & Hle & Hmade).
    fold r in Hmade. rewrite Hmade.
    apply In_backend_attempts in Hin. rewrite Hmade in Hin.
    apply in_seq in Hin. unfold num_retries in Hle.
    replace made with 10%nat by lia. reflexivity.
  - destruct Hout as [_ Hout]. rewrite Hexit in Hout. discriminate Hout.
Qed.

Lemma X8_witness :
  let cfg := Samples.no_plugins_cfg false in
  let w := Samples.failing_then 9 (APIError (Some 502)) (Err RateLimitError) (Ok []) in
  let r := create_chat_completion cfg w Samples.calculator_request in
  outcome_of r = Exited 1 /\
  backend_attempts (trace r) = seq 0 10 /\
  In (Backend 9 (backend_request cfg Samples.calculator_request)
        (Some RateLimitError)) (trace r).
Proof.
  intros cfg w r.
  assert (Hexit : outcome_of r = Exited 1) by reflexivity.
  split; [exact Hexit |].
  destruct (X8_exit_only_when_run_out cfg w Samples.calculator_request 1 Hexit)
    as (_ & _ & Hmade & Hin).
  split; [exact Hmade | exact Hin].
Defined.

(** X9.  A rate limit on the last attempt is slept on like any other:
    the dispatcher still waits 2048 after it, although no attempt is
    left, and only then writes the two lines of the report, which end
    the trace. *)
Theorem X9_last_rate_limit_is_slept_on cfg w req call :
  let r := create_chat_completion cfg w req in
  In (Backend 9 call (Some RateLimitError)) (trace r) ->
  exists pre between,
    trace r
    = pre ++ Backend 9 call (Some RateLimitError) :: between
        ++ [Sleep 2048; Log (TypewriterLog failed_title); Log DoubleCheck] /\
    Forall (fun ev => is_line ev = true) between.
Proof.
  intros r Hin.
  destruct (backend_event_in_loop cfg w req 9 call (Some RateLimitError) Hin)
    as (Hloop & head & tail & Htrace & Hout).
  fold r in Htrace, Hout.
  destruct (retry_loop_last_attempt cfg w req num_retries 0%nat false call
              RateLimitError eq_refl Hloop) as [[_ Hnone] | [Hrate _]];
    [| discriminate Hrate].
  rewrite Hnone in Hout. destruct Hout as [-> _].
  destruct (retry_loop_last_sleep cfg w req num_retries 0%nat false call
              eq_refl Hloop) as (pre & between & Hloop_trace & Hlines).
  exists (head ++ pre), between. split; [| exact Hlines].
  rewrite Htrace, Hloop_trace.
  assert (Hreport : trace (deliver cfg None)
                    = [Log (TypewriterLog failed_title); Log DoubleCheck])
    by (cbn; destruct (debug_mode cfg); reflexivity).
  rewrite Hreport. cbn [num_retries Nat.sub].
  rewrite <- !app_assoc. cbn [app]. rewrite <- !app_assoc. reflexivity.
Qed.

Lemma X9_witness :
  let cfg := Samples.no_plugins_cfg false in
  let w := Samples.constant_world (Err RateLimitError) (Ok []) in
  let r := create_chat_completion cfg w Samples.calculator_request in
  let call := backend_request cfg Samples.calculator_request in
  In (Backend 9 call (Some RateLimitError)) (trace r) /\
  exists pre between,
    trace r
    = pre ++ Backend 9 call (Some RateLimitError) :: between
        ++ [Sleep 2048; Log (TypewriterLog failed_title); Log DoubleCheck] /\
    Forall (fun ev => is_line ev = true) between.
Proof.
  intros cfg w r call.
  assert (Hin : In (Backend 9 call (Some RateLimitError)) (trace r)).
  { vm_compute. do 19 right. left. reflexivity. }
  split; [exact Hin |].
  exact (X9_last_rate_limit_is_slept_on cfg w Samples.calculator_request
           call Hin).
Defined.

(** ** The billing warning *)

Lemma retry_loop_warning_cause cfg w req attempts : forall warned,
  (0 < paid_account_warnings (trace (retry_loop cfg w req attempts warned)))%nat ->
  exists k,
    In (Backend k (backend_request cfg req) (Some RateLimitError))
       (trace (retry_loop cfg w req attempts warned)).
Proof.
  induction attempts as [| a rest IH]; intros warned.
  - cbn. lia.
  - cbn [retry_loop]. unfold backend_attempt, wait_before_retry.
    loop_cases cfg (backend_answer cfg w req a);
      cbn [paid_account_warnings]; intros Hpos;
      try (exfalso; lia);
      try solve [exists a; left; reflexivity].
    all: destruct (IH _ Hpos) as [k Hk]; exists k; repeat right; exact Hk.
Qed.

(** X10.  The billing warning is written in a dispatch if and only if
    one of its attempts was rate limited. *)
Theorem X10_warning_iff_rate_limited cfg w req :
  let tr := trace (create_chat_completion cfg w req) in
  paid_account_warnings tr = 1%nat <->
  exists k, In (Backend k (backend_request cfg req) (Some RateLimitError)) tr.
Proof.
  intros tr. subst tr.
  destruct (create_chat_completion_shape cfg w req)
    as (head & [Hhead Hwhead]
        & [[message Hshort] | (tail & [Htail Hwtail] & Htrace & _)]).
  - rewrite Hshort. cbn [trace]. rewrite Hwhead. split; [discriminate |].
    intros [k Hin]. exfalso. exact (In_backend_aside _ _ _ _ Hhead Hin).
  - rewrite Htrace, !paid_account_warnings_app, Hwhead, Hwtail.
    split.
    + intros Hone.
      destruct (retry_loop_warning_cause cfg w req (seq 0 num_retries) false)
        as [k Hk]; [lia |].
      exists k. apply in_or_app. right. apply in_or_app. left. exact Hk.
    + intros [k Hin].
      apply in_app_or in Hin. destruct Hin as [Hin | Hin];
        [exfalso; exact (In_backend_aside _ _ _ _ Hhead Hin) |].
      apply in_app_or in Hin. destruct Hin as [Hin | Hin];
        [| exfalso; exact (In_backend_aside _ _ _ _ Htail Hin)].
      rewrite (retry_loop_warns_once _ _ _ _ _ _ _ Hin). reflexivity.
Qed.

Lemma X10_witness :
  let cfg := Samples.no_plugins_cfg false in
  let w := Samples.failing_then 2 RateLimitError (Ok ["4"%string]) (Ok []) in
  let tr := trace (create_chat_completion cfg w Samples.calculator_request) in
  paid_account_warnings tr = 1%nat /\
  exists k,
    In (Backend k (backend_request cfg Samples.calculator_request)
          (Some RateLimitError)) tr.
Proof.
  intros cfg w tr.
  assert (Hone : paid_account_warnings tr = 1%nat) by reflexivity.
  split; [exact Hone |].
  exact (proj1 (X10_warning_iff_rate_limited cfg w Samples.calculator_request)
           Hone).
Defined.

(** ** Debug mode *)

Lemma erase_prints_app (a b : list event) :
  erase_prints (a ++ b) = erase_prints a ++ erase_prints b.
Proof. apply filter_app. Qed.

Lemma erase_prints_plugins_handle ps req : forall index,
  erase_prints (trace (plugins_handle ps index req))
  = trace (plugins_handle ps index req).
Proof.
  induction ps as [| plugin rest IH]; intros index; [reflexivity |].
  cbn [plugins_handle].
  destruct (can_handle_chat_completion plugin req); cbn.
  - destruct (handle_chat_completion plugin req); cbn; [reflexivity |].
    fold (erase_prints (trace (plugins_handle rest (S index) req))).
    rewrite IH. reflexivity.
  - fold (erase_prints (trace (plugins_handle rest (S index) req))).
    rewrite IH. reflexivity.
Qed.

Lemma erase_prints_post_processing ps : forall index,
  erase_prints (post_processing ps index) = post_processing ps index.
Proof.
  induction ps as [| plugin rest IH]; intros index; [reflexivity |].
  cbn [post_processing]. rewrite erase_prints_app, IH.
  destruct (can_handle_on_response plugin); reflexivity.
Qed.

Lemma erase_prints_cons (ev : event) (tr : list event) :
  erase_prints (ev :: tr)
  = (if is_print ev then [] else [ev]) ++ erase_prints tr.
Proof. unfold erase_prints. cbn. destruct (is_print ev); reflexivity. Qed.

(** Without its console lines, a run of the loop in debug mode is the
    run of the loop outside of debug mode. *)
Lemma retry_loop_debug cfg w req attempts : forall warned,
  erase_prints (trace (retry_loop cfg w req attempts warned))
  = trace (retry_loop (with_debug cfg false) w req attempts warned) /\
  outcome_of (retry_loop cfg w req attempts warned)
  = outcome_of (retry_loop (with_debug cfg false) w req attempts warned).
Proof.
  induction attempts as [| a rest IH]; intros warned.
  - split; reflexivity.
  - cbn [retry_loop]. unfold backend_attempt, wait_before_retry.
    change (backend_answer (with_debug cfg false) w req a)
      with (backend_answer cfg w req a).
    change (backend_request (with_debug cfg false) req)
      with (backend_request cfg req).
    destruct (backend_answer cfg w req a)
      as [? | [ | [code |] | [code |] | ? ?]] eqn:Hanswer;
      cbn -[Z.pow Z.add Z.of_nat Nat.eqb Z.eqb num_retries Nat.sub erase_prints];
      try solve [split; reflexivity].
    + destruct (IH true) as [Htrace Hout].
      destruct (debug_mode cfg), warned;
        cbn -[Z.pow Z.add Z.of_nat erase_prints];
        rewrite !erase_prints_cons; cbn [is_print app];
        rewrite Htrace, Hout; split; reflexivity.
    + destruct (IH warned) as [Htrace Hout].
      destruct (Z.eqb_spec code 502); cbn [negb]; [| split; reflexivity].
      destruct (Nat.eqb a (num_retries - 1)); [split; reflexivity |].
      destruct (debug_mode cfg);
        cbn -[Z.pow Z.add Z.of_nat erase_prints];
        rewrite !erase_prints_cons; cbn [is_print app];
        rewrite Htrace, Hout; split; reflexivity.
    + destruct (IH warned) as [Htrace Hout].
      destruct (Z.eqb_spec code 502); cbn [negb]; [| split; reflexivity].
      destruct (Nat.eqb a (num_retries - 1)); [split; reflexivity |].
      destruct (debug_mode cfg);
        cbn -[Z.pow Z.add Z.of_nat erase_prints];
        rewrite !erase_prints_cons; cbn [is_print app];
        rewrite Htrace, Hout; split; reflexivity.
Qed.

Lemma deliver_none cfg :
  deliver cfg None
  = mkRun [Log (TypewriterLog failed_title); Log DoubleCheck]
      (if debug_mode cfg then
         Raised (PyError "RuntimeError" "Failed to get response after 10 retries")
       else Exited 1).
Proof. unfold deliver. destruct (debug_mode cfg); reflexivity. Qed.

(** X11.  Debug mode changes what is printed and how a dispatch that
    ran out of attempts ends, and nothing else: without its console
    lines, the trace of a dispatch is the trace of the same dispatch
    outside of debug mode, and the two dispatches end alike, unless the
    one ends with the [RuntimeError] of line 161 where the other ends
    the process with status 1. *)
Theorem X11_debug_mode_only_prints cfg w req :
  let r := create_chat_completion cfg w req in
  let plain := create_chat_completion (with_debug cfg false) w req in
  erase_prints (trace r) = trace plain /\
  (outcome_of r = outcome_of plain \/
   debug_mode cfg = true /\
   outcome_of r
   = Raised (PyError "RuntimeError" "Failed to get response after 10 retries") /\
   outcome_of plain = Exited 1).
Proof.
  intros r plain. subst r plain. unfold create_chat_completion.
  rewrite (bind_returned _ _ tt (announce_returns cfg req)).
  rewrite (bind_returned _ _ tt (announce_returns (with_debug cfg false) req)).
  change (plugins (with_debug cfg false)) with (plugins cfg).
  destruct (plugins_handle_quiet (plugins cfg) req 0%nat) as [_ [message Hout]].
  rewrite !(bind_returned _ _ message Hout). cbn [trace outcome_of].
  assert (Hannounce : erase_prints (trace (announce cfg req))
                      = trace (announce (with_debug cfg false) req)).
  { unfold announce. destruct (debug_mode cfg); reflexivity. }
  rewrite !erase_prints_app, Hannounce, erase_prints_plugins_handle.
  destruct message as [message |]; [split; [reflexivity | left; reflexivity] |].
  destruct (retry_loop_debug cfg w req (seq 0 num_retries) false)
    as [Hloop_trace Hloop_out].
  destruct (outcome_of (retry_loop cfg w req (seq 0 num_retries) false))
    as [[response |] | e | c] eqn:Hloop.
  - (* a response is delivered *)
    rewrite (bind_returned _ _ (Some response) Hloop).
    rewrite (bind_returned _ _ (Some response) (eq_sym Hloop_out)).
    cbn [trace outcome_of]. rewrite erase_prints_app, Hloop_trace.
    change (deliver (with_debug cfg false) (Some response))
      with (deliver cfg (Some response)).
    assert (Hdeliver : erase_prints (trace (deliver cfg (Some response)))
                       = trace (deliver cfg (Some response))).
    { unfold deliver.
      destruct (use_local_model cfg), response as [[| first others] | text];
        cbn; try rewrite plugins_on_response_run; cbn;
        try apply erase_prints_post_processing; reflexivity. }
    rewrite Hdeliver. split; [reflexivity | left; reflexivity].
  - (* the loop ran out *)
    rewrite (bind_returned _ _ None Hloop).
    rewrite (bind_returned _ _ None (eq_sym Hloop_out)).
    cbn [trace outcome_of]. rewrite erase_prints_app, Hloop_trace.
    rewrite (deliver_none cfg), (deliver_none (with_debug cfg false)).
    cbn [trace outcome_of with_debug debug_mode].
    split; [f_equal |].
    destruct (debug_mode cfg); [right | left]; repeat split.
  - rewrite (bind_raised _ _ e Hloop).
    rewrite (bind_raised _ _ e (eq_sym Hloop_out)).
    cbn [trace outcome_of]. rewrite Hloop_trace.
    split; [reflexivity | left; reflexivity].
  - exfalso. exact (retry_loop_not_exited _ _ _ _ _ _ Hloop).
Qed.

(** ** Plugins that do not answer *)

Lemma plugins_handle_none ps req : forall index,
  (forall plugin text, In plugin ps -> ~ answers plugin req text) ->
  plugins_handle ps index req
  = mkRun (consultations ps index req) (Returned None).
Proof.
  induction ps as [| plugin rest IH]; intros index Hnone; [reflexivity |].
  assert (Hrest : forall p text, In p rest -> ~ answers p req text)
    by (intros p text Hp; apply Hnone; right; exact Hp).
  cbn [plugins_handle consultations].
  destruct (can_handle_chat_completion plugin req) eqn:Hcan; cbn.
  - destruct (handle_chat_completion plugin req) as [text |] eqn:Hhandle.
    + exfalso. apply (Hnone plugin text); [left; reflexivity | split; assumption].
    + rewrite (IH (S index) Hrest). reflexivity.
  - rewrite (IH (S index) Hrest). reflexivity.
Qed.

Lemma trace_bind_prefix {A B} (m : run A) (k : A -> run B) :
  exists rest, trace (bind m k) = trace m ++ rest.
Proof.
  unfold bind. destruct (outcome_of m); cbn.
  - eexists; reflexivity.
  - exists []. rewrite app_nil_r. reflexivity.
  - exists []. rewrite app_nil_r. reflexivity.
Qed.

(** X12.  When no plugin answers the request (none opts in, or those
    that opt in give [None]), every plugin of the registry is consulted,
    in order, and the dispatch goes on to the backend: the first attempt
    follows the last consultation. *)
Theorem X12_plugins_fall_through cfg w req :
  let r := create_chat_completion cfg w req in
  (forall plugin text, In plugin (plugins cfg) -> ~ answers plugin req text) ->
  exists failure rest,
    trace r
    = trace (announce cfg req)
        ++ consultations (plugins cfg) 0 req
        ++ Backend 0 (backend_request cfg req) failure :: rest.
Proof.
  intros r Hnone. subst r. unfold create_chat_completion.
  rewrite (bind_returned _ _ tt (announce_returns cfg req)).
  rewrite (plugins_handle_none (plugins cfg) req 0%nat Hnone).
  rewrite (bind_returned (mkRun (consultations (plugins cfg) 0 req)
                            (Returned None)) _ None eq_refl).
  cbn [trace outcome_of].
  destruct (trace_bind_prefix
              (retry_loop cfg w req (seq 0 num_retries) false)
              (fun response => deliver cfg response))
    as [rest Hrest].
  rewrite Hrest.
  destruct (retry_loop_head cfg w req 0%nat (seq 1 9) false) as [tail Htail].
  change (seq 0 num_retries) with (0%nat :: seq 1 9).
  rewrite Htail. cbn [app].
  eexists _, (tail ++ rest). reflexivity.
Qed.

Lemma X12_witness :
  let cfg := Samples.plugins_cfg [Samples.idle_plugin; MoreSamples.silent_plugin] in
  let w := Samples.constant_world (Ok ["4"%string]) (Ok []) in
  let r := create_chat_completion cfg w Samples.calculator_request in
  (forall plugin text,
     In plugin (plugins cfg) -> ~ answers plugin Samples.calculator_request text) /\
  trace r = [PluginCanHandle 0; PluginCanHandle 1; PluginHandle 1;
             Backend 0 (backend_request cfg Samples.calculator_request) None] /\
  exists failure rest,
    trace r
    = trace (announce cfg Samples.calculator_request)
        ++ consultations (plugins cfg) 0 Samples.calculator_request
        ++ Backend 0 (backend_request cfg Samples.calculator_request) failure
           :: rest.
Proof.
  intros cfg w r.
  assert (Hnone : forall plugin text,
             In plugin (plugins cfg) ->
             ~ answers plugin Samples.calculator_request text).
  { intros plugin text [<- | [<- | []]] [Hcan Hhandle]; discriminate. }
  split; [exact Hnone |]. split; [reflexivity |].
  exact (X12_plugins_fall_through cfg w Samples.calculator_request Hnone).
Defined.

Lemma consultations_no_on_response ps req : forall index i,
  ~ In (PluginOnResponse i) (consultations ps index req).
Proof.
  induction ps as [| plugin rest IH]; intros index i Hin; [destruct Hin |].
  cbn [consultations] in Hin.
  destruct (can_handle_chat_completion plugin req); cbn in Hin;
    repeat (destruct Hin as [Hin | Hin]; [discriminate Hin |]);
    exact (IH _ _ Hin).
Qed.

(** X13.  The text of a plugin that answers in place of the backend is
    returned without post-processing: no [on_response] of any plugin is
    called in such a dispatch. *)
Theorem X13_plugin_answer_not_post_processed cfg w req i plugin text :
  let r := create_chat_completion cfg w req in
  nth_error (plugins cfg) i = Some plugin ->
  answers plugin req text ->
  forall index, ~ In (PluginOnResponse index) (trace r).
Proof.
  intros r Hnth Hanswers index Hin.
  destruct (plugins_handle_first (plugins cfg) req 0%nat i plugin text
              Hnth Hanswers)
    as (j & winner & answer & _ & _ & _ & _ & Hrun).
  subst r. unfold create_chat_completion in Hin.
  rewrite (bind_returned _ _ tt (announce_returns cfg req)) in Hin.
  rewrite Hrun in Hin. cbn in Hin. rewrite app_nil_r in Hin.
  apply in_app_or in Hin. destruct Hin as [Hin | Hin].
  - unfold announce in Hin. destruct (debug_mode cfg); cbn in Hin.
    + destruct Hin as [Hin | []]. discriminate Hin.
    + destruct Hin.
  - exact (consultations_no_on_response _ _ _ _ Hin).
Qed.

Lemma X13_witness :
  let ps := [MoreSamples.suffix_plugin "!";
             Samples.answering_plugin (Some "hi"%string)] in
  let cfg := Samples.plugins_cfg ps in
  let w := Samples.constant_world (Ok ["4"%string]) (Ok []) in
  let r := create_chat_completion cfg w Samples.calculator_request in
  nth_error (plugins cfg) 1 = Some (Samples.answering_plugin (Some "hi"%string)) /\
  answers (Samples.answering_plugin (Some "hi"%string))
    Samples.calculator_request "hi" /\
  outcome_of r = Returned (Text "hi") /\
  ~ In (PluginOnResponse 0) (trace r).
Proof.
  intros ps cfg w r.
  assert (Hanswers : answers (Samples.answering_plugin (Some "hi"%string))
                       Samples.calculator_request "hi")
    by (split; reflexivity).
  split; [reflexivity |]. split; [exact Hanswers |]. split; [reflexivity |].
  exact (X13_plugin_answer_not_post_processed cfg w Samples.calculator_request
           1 (Samples.answering_plugin (Some "hi"%string)) "hi"%string
           eq_refl Hanswers 0%nat).
Defined.

(** ** The text of an embedding request *)

Lemma normalized_no_newline (text : string) : newlines (normalized text) = 0%nat.
Proof.
  unfold normalized.
  induction text as [| c rest IH]; [reflexivity |].
  cbn [Py.replace_char].
  destruct (Ascii.eqb c Py.newline_char) eqn:Hc; cbn [append newlines].
  - exact IH.
  - rewrite Hc, IH. reflexivity.
Qed.

Lemma normalized_length (text : string) :
  String.length (normalized text) = String.length text.
Proof.
  unfold normalized.
  induction text as [| c rest IH]; [reflexivity |].
  cbn [Py.replace_char].
  destruct (Ascii.eqb c Py.newline_char); cbn; rewrite IH; reflexivity.
Qed.

Lemma normalized_fixed (text : string) :
  newlines text = 0%nat -> normalized text = text.
Proof.
  unfold normalized.
  induction text as [| c rest IH]; intros Hnone; [reflexivity |].
  cbn [Py.replace_char newlines] in *.
  destruct (Ascii.eqb c Py.newline_char); [discriminate Hnone |].
  rewrite IH by exact Hnone. reflexivity.
Qed.

(** X14.  The text [get_ada_embedding] sends has no newline left and
    has the length of the text given; a text without newline is sent
    unchanged.  The function makes this one request and never sleeps. *)
Theorem X14_embedding_text_has_no_newline w text :
  exists sent failure,
    trace (get_ada_embedding w text)
    = [Backend 0 (EmbeddingCreate [sent] ada_model) failure] /\
    newlines sent = 0%nat /\
    String.length sent = String.length text /\
    (newlines text = 0%nat -> sent = text).
Proof.
  exists (normalized text).
  exists (failure_of (api_manager_embedding_create w
                        (EmbeddingCreate [normalized text] ada_model) 0)).
  split; [| split; [| split]].
  - unfold get_ada_embedding, embedding_attempt. fold (normalized text).
    destruct (api_manager_embedding_create w
                (EmbeddingCreate [normalized text] ada_model) 0);
      reflexivity.
  - apply normalized_no_newline.
  - apply normalized_length.
  - apply normalized_fixed.
Qed.

Lemma X14_witness :
  let text := String "a" (String Py.newline_char (String Py.newline_char "b")) in
  let w := Samples.constant_world (Ok []) (Ok []) in
  trace (get_ada_embedding w text)
  = [Backend 0 (EmbeddingCreate ["a  b"%string] ada_model) None] /\
  (newlines "ab" = 0%nat ->
   exists sent failure,
     trace (get_ada_embedding w "ab")
     = [Backend 0 (EmbeddingCreate [sent] ada_model) failure] /\
     sent = "ab"%string).
Proof.
  intros text w. split; [reflexivity |].
  intros Hnone.
  destruct (X14_embedding_text_has_no_newline w "ab")
    as (sent & failure & Htrace & _ & _ & Hfixed).
  exists sent, failure. split; [exact Htrace | exact (Hfixed Hnone)].
Defined.

(** ** The text of a prompt *)

Lemma string_append_assoc (a b c : string) :
  ((a ++ b) ++ c)%string = (a ++ (b ++ c))%string.
Proof. induction a as [| ch a IH]; cbn; [| rewrite IH]; reflexivity. Qed.

Lemma string_length_append (a b : string) :
  String.length (a ++ b)%string = (String.length a + String.length b)%nat.
Proof. induction a as [| ch a IH]; cbn; [| rewrite IH]; reflexivity. Qed.

Lemma transcript_app (a b : list Message) :
  transcript (a ++ b) = (transcript a ++ transcript b)%string.
Proof.
  induction a as [| turn rest IH]; [reflexivity |].
  cbn [app transcript]. rewrite IH.
  rewrite !string_append_assoc. reflexivity.
Qed.

(** X15.  The transcript of a conversation is put together turn by
    turn: that of two conversations one after the other is the two
    transcripts one after the other (that of no turn being the empty
    text), and each turn adds its role, its content and 18 characters
    of delimiters to the length. *)
Theorem X15_message_string_by_turns (a b : list Message) :
  get_message_string (a ++ b)
  = (get_message_string a ++ get_message_string b)%string /\
  String.length (get_message_string a)
  = fold_right
      (fun turn total =>
         (String.length (role turn) + String.length (content turn) + 18
          + total)%nat)
      0%nat a.
Proof.
  rewrite !get_message_string_transcript. split; [apply transcript_app |].
  induction a as [| turn rest IH]; [reflexivity |].
  cbn [transcript fold_right]. rewrite <- IH.
  rewrite !string_length_append. cbn -[Nat.add transcript]. lia.
Qed.

(** X16.  The delimiters are not escaped: a turn whose content holds
    the end of a turn and the start of another gives the transcript of
    the two turns, so the conversation cannot be read back from the
    transcript. *)
Theorem X16_message_string_is_ambiguous (role1 content1 role2 content2 : string) :
  get_message_string
    [ mkMessage role1
        (content1 ++ "<|end|>" ++ Py.nl ++ "<|start|>" ++ role2 ++ Py.nl
         ++ content2)%string ]
  = get_message_string [mkMessage role1 content1; mkMessage role2 content2].
Proof.
  rewrite !get_message_string_transcript.
  cbn [transcript role content].
  repeat rewrite string_append_assoc. reflexivity.
Qed.

Lemma join_cons_cons (sep part next : string) (parts : list string) :
  Py.join sep (part :: next :: parts)
  = (part ++ sep ++ Py.join sep (next :: parts))%string.
Proof. reflexivity. Qed.

(** X17.  Only the text of each argument reaches the prompt of
    [call_ai_function]: an argument and the string of its text give
    the same user turn, and so do one string argument that holds a
    comma followed by a space and the two string arguments around it. *)
Theorem X17_arguments_are_flattened (args : list Py.value) (a b : string) :
  args_content (map (fun arg => Py.VStr (Py.str arg)) args) = args_content args /\
  args_content (Py.VStr (a ++ ", " ++ b) :: args)
  = args_content (Py.VStr a :: Py.VStr b :: args).
Proof.
  unfold args_content. split.
  - rewrite map_map. f_equal. apply map_ext.
    intros [| [|] | n | s | s]; reflexivity.
  - cbn [map Py.is_none negb Py.str].
    rewrite join_cons_cons.
    destruct args as [| arg rest].
    + reflexivity.
    + cbn [map]. rewrite join_cons_cons.
      rewrite !string_append_assoc. reflexivity.
Qed.

(** ** A successful embedding request *)

Lemma embedding_loop_succeeds cfg w text n : forall start k call,
  In (Backend k call None) (trace (embedding_loop cfg w text (seq start n))) ->
  exists v pre,
    api_manager_embedding_create w (EmbeddingCreate [text] ada_model) k = Ok v /\
    outcome_of (embedding_loop cfg w text (seq start n)) = Returned (Some v) /\
    trace (embedding_loop cfg w text (seq start n))
    = pre ++ [Backend k call None] /\
    (start <= k)%nat /\
    sleeps (trace (embedding_loop cfg w text (seq start n)))
    = map backoff_of (seq start (k - start)).
Proof.
  induction n as [| n IH]; intros start k call.
  - intros [].
  - cbn [seq embedding_loop]. unfold embedding_attempt, wait_before_retry.
    loop_cases cfg
      (api_manager_embedding_create w (EmbeddingCreate [text] ada_model) start);
      intros Hin.
    all: repeat match goal with
           | H : _ \/ _ |- _ => destruct H as [H | H]
           | H : False |- _ => destruct H
           | H : Backend _ _ (Some _) = Backend _ _ None |- _ => discriminate H
           | H : Backend _ _ None = Backend _ _ None |- _ =>
               inversion H; clear H; subst
           | H : _ = Backend _ _ _ |- _ => discriminate H
           end.
    all: try solve
      [ eexists; exists []; split; [eassumption |];
        rewrite Nat.sub_diag; repeat split; lia ].
    all: destruct (IH _ _ _ Hin)
        as (v & pre & Hanswer' & Hout & Hpre & Hle & Hsleeps);
      exists v;
      match goal with
      | |- exists pre', _ /\ _ /\ ?tr = _ /\ _ /\ _ =>
          assert (Hlast : exists pre', tr = pre' ++ [Backend k call None])
            by (rewrite Hpre; extend_prefix pre)
      end;
      destruct Hlast as [pre' Hpre']; exists pre';
      (split; [exact Hanswer' |]); (split; [exact Hout |]);
      (split; [exact Hpre' |]); (split; [lia |]);
      cbn [sleeps]; rewrite Hsleeps;
      replace (k - start)%nat with (S (k - S start)) by lia;
      reflexivity.
Qed.

(** X18.  A successful request of [create_embedding_with_ada] is its
    last event: the function returns the embedding of that request (and
    not [None]), having made the attempts 0 .. k and slept
    2 ^ (j + 2) after each attempt j < k. *)
Theorem X18_embedding_success cfg w text k call :
  let r := create_embedding_with_ada cfg w text in
  In (Backend k call None) (trace r) ->
  exists v pre,
    api_manager_embedding_create w (EmbeddingCreate [text] ada_model) k = Ok v /\
    outcome_of r = Returned (Some v) /\
    trace r = pre ++ [Backend k call None] /\
    backend_attempts (trace r) = seq 0 (S k) /\
    sleeps (trace r) = map (fun j => 2 ^ (Z.of_nat j + 2)) (seq 0 k).
Proof.
  intros r Hin. subst r. unfold create_embedding_with_ada in *.
  destruct (embedding_loop_succeeds cfg w text _ _ _ _ Hin)
    as (v & pre & Hanswer & Hout & Hpre & _ & Hsleeps).
  exists v, pre.
  split; [exact Hanswer |]. split; [exact Hout |]. split; [exact Hpre |].
  split.
  - destruct (embedding_loop_attempts cfg w text num_retries 0%nat)
      as (made & _ & Hmade).
    exact (attempts_up_to_last _ _ _ _ _ _ Hmade Hpre).
  - rewrite Hsleeps, Nat.sub_0_r. reflexivity.
Qed.

Lemma X18_witness :
  let cfg := Samples.no_plugins_cfg false in
  let w := Samples.failing_then 2 RateLimitError (Ok []) (Ok [S754_zero false]) in
  let r := create_embedding_with_ada cfg w "text" in
  let call := EmbeddingCreate ["text"%string] ada_model in
  In (Backend 2 call None) (trace r) /\
  outcome_of r = Returned (Some [S754_zero false]) /\
  sleeps (trace r) = [4; 8].
Proof.
  intros cfg w r call.
  assert (Hin : In (Backend 2 call None) (trace r))
    by (do 4 right; left; reflexivity).
  split; [exact Hin |].
  destruct (X18_embedding_success cfg w "text" 2 call Hin)
    as (v & pre & Hanswer & Hout & _ & _ & Hsleeps).
  split; [| exact Hsleeps].
  cbn in Hanswer. injection Hanswer as <-. exact Hout.
Defined.

(** X19.  With the hosted service as the backend, every request of a
    run of [call_ai_function] names the model given, or
    [CFG.smart_llm_model] when none is given, carries the two turns of
    the function call, the temperature 0 and no limit of tokens. *)
Theorem X19_call_ai_function_request cfg w function args description model_arg
    k call failure :
  use_azure cfg = false ->
  use_local_model cfg = false ->
  In (Backend k call failure)
     (trace (call_ai_function cfg w function args description model_arg)) ->
  call = ChatCompletion
           (Some (match model_arg with
                  | Some name => name
                  | None => smart_llm_model cfg
                  end))
           [ mkMessage "system" (system_content function description);
             mkMessage "user" (args_content args) ]
           (Py.NInt 0) None.
Proof.
  intros Hazure Hlocal Hin. unfold call_ai_function in Hin.
  rewrite (create_chat_completion_calls _ _ _ _ _ _ Hin).
  unfold backend_request. rewrite Hazure, Hlocal.
  destruct model_arg; reflexivity.
Qed.

Lemma X19_witness :
  let cfg := Samples.no_plugins_cfg false in
  let w := Samples.constant_world (Ok ["2"%string]) (Ok []) in
  let call :=
    ChatCompletion (Some "gpt-4"%string)
      [ mkMessage "system" (system_content "add(a,b)" "adds two numbers");
        mkMessage "user" "2, None" ]
      (Py.NInt 0) None in
  use_azure cfg = false /\ use_local_model cfg = false /\
  In (Backend 0 call None)
     (trace (call_ai_function cfg w "add(a,b)" [Py.VInt 2; Py.VNone]
               "adds two numbers" None)) /\
  call = ChatCompletion (Some (smart_llm_model cfg))
           [ mkMessage "system" (system_content "add(a,b)" "adds two numbers");
             mkMessage "user" (args_content [Py.VInt 2; Py.VNone]) ]
           (Py.NInt 0) None.
Proof.
  intros cfg w call.
  assert (Hin : In (Backend 0 call None)
                   (trace (call_ai_function cfg w "add(a,b)" [Py.VInt 2; Py.VNone]
                             "adds two numbers" None)))
    by (left; reflexivity).
  split; [reflexivity |]. split; [reflexivity |]. split; [exact Hin |].
  exact (X19_call_ai_function_request cfg w "add(a,b)" [Py.VInt 2; Py.VNone]
           "adds two numbers" None 0 call None eq_refl eq_refl Hin).
Defined.
